(** * Taxi-tip MLOps notebooks: data preparation, job polling, monitoring

    A shallow embedding of the code cells of the notebooks that carry
    logic of their own:

    - the data-preparation SQL script of the two dataset notebooks
      (filter, labelling, random split, [CREATE OR REPLACE TABLE]),
    - the placeholder substitution applied to that script,
    - the loop that polls the state of the custom training job,
    - the construction and the retrieval of the model monitoring job,
    - the run of the cells that call the services, statement by statement.

    Numeric columns of the warehouse (FLOAT64) are modelled as exact
    rationals [Q]; a nullable column is an [option]. *)

From Stdlib Require Import ZArith QArith String Ascii List Bool Lia.
From Stdlib Require Import DecimalString.
From stdpp Require Import base option list gmap strings.
Import ListNotations.

Local Open Scope Z_scope.

(** ** Warehouse SQL values and operators *)

Module Sql.

(** Errors a query can abort with. *)
Inductive sql_error : Type :=
| DivisionByZero.

Inductive result (A : Type) : Type :=
| Ok (a : A)
| Err (e : sql_error).
Arguments Ok {A} a.
Arguments Err {A} e.

Definition bind {A B : Type} (r : result A) (k : A -> result B) : result B :=
  match r with
  | Ok a => k a
  | Err e => Err e
  end.

Notation "'try' x <- r 'in' k" := (bind r (fun x => k))
  (at level 10, x name, r at level 100, k at level 200).

(** [e IS NOT NULL] never yields NULL itself. *)
Definition is_not_null {A : Type} (e : option A) : option bool :=
  Some (match e with Some _ => true | None => false end).

(** Comparisons yield NULL when an operand is NULL. *)
Definition gt (a b : option Q) : option bool :=
  match a, b with
  | Some x, Some y => Some (negb (Qle_bool x y))
  | _, _ => None
  end.

Definition ge (a b : option Q) : option bool :=
  match a, b with
  | Some x, Some y => Some (Qle_bool y x)
  | _, _ => None
  end.

Definition le (a b : option Q) : option bool :=
  match a, b with
  | Some x, Some y => Some (Qle_bool x y)
  | _, _ => None
  end.

Definition gtz (a b : option Z) : option bool :=
  match a, b with
  | Some x, Some y => Some (y <? x)
  | _, _ => None
  end.

Definition eqz (a b : option Z) : option bool :=
  match a, b with
  | Some x, Some y => Some (x =? y)
  | _, _ => None
  end.

(** Three-valued conjunction: FALSE dominates NULL. *)
Definition and3 (a b : option bool) : option bool :=
  match a, b with
  | Some false, _ | _, Some false => Some false
  | Some true, Some true => Some true
  | _, _ => None
  end.

(** A [WHERE] clause keeps a row only when its condition is TRUE. *)
Definition holds (c : option bool) : bool :=
  match c with
  | Some true => true
  | _ => false
  end.

(** [IF(c, a, b)] yields [a] when [c] is TRUE and [b] when it is FALSE or
    NULL. *)
Definition IF {A : Type} (c : option bool) (a b : A) : A :=
  if holds c then a else b.

(** [a / b]: NULL when an operand is NULL, an error when the divisor is
    zero. *)
Definition div (a b : option Q) : result (option Q) :=
  match a, b with
  | Some x, Some y =>
      if Qeq_bool y 0 then Err DivisionByZero else Ok (Some (x / y)%Q)
  | _, _ => Ok None
  end.

(** [CONCAT] yields NULL when an argument is NULL. *)
Definition CONCAT (a b : option string) : option string :=
  match a, b with
  | Some x, Some y => Some (x +:+ y)
  | _, _ => None
  end.

Definition lift1 {A B : Type} (f : A -> B) (a : option A) : option B :=
  match a with
  | Some x => Some (f x)
  | None => None
  end.

Definition lift2 {A B C : Type} (f : A -> B -> C)
    (a : option A) (b : option B) : option C :=
  match a, b with
  | Some x, Some y => Some (f x y)
  | _, _ => None
  end.

End Sql.

(** ** The data-preparation query *)

Module DataPrep.
Import Sql.

Inductive date_part : Type := YEAR | MONTH | DAY | DAYOFWEEK | HOUR.

(** The two notebooks that prepare the data differ in the name and in the
    condition of the split column: [data_split] in the data analysis
    notebook, [ML_use] in the dataset management notebook. *)
Inductive notebook : Type := DataAnalysis | DatasetManagement.

Definition UNASSIGNED : string := "UNASSIGNED".
Definition TEST : string := "TEST".

(** [IF(RAND() > 0.8, 'UNASSIGNED', 'TEST') AS data_split], as a function
    of the value [r] drawn by [RAND()]. *)
Definition data_split (r : Q) : string :=
  IF (gt (Some r) (Some (8 # 10))) UNASSIGNED TEST.

(** [IF(RAND() <= 0.8, 'UNASSIGNED', 'TEST') AS ML_use]. *)
Definition ML_use (r : Q) : string :=
  IF (le (Some r) (Some (8 # 10))) UNASSIGNED TEST.

Definition split_column (nb : notebook) : Q -> string :=
  match nb with
  | DataAnalysis => data_split
  | DatasetManagement => ML_use
  end.

(** [IF((tips/fare >= 0.2), 1, 0) AS tip_bin]. *)
Definition tip_bin (tips fare : option Q) : result Z :=
  try ratio <- div tips fare in
  Ok (IF (ge ratio (Some (2 # 10))) 1 0).

(** The calendar and geography builtins of the warehouse, which the script
    calls and this development does not look into. *)
Class SqlEngine : Type := {
  Timestamp : Type;
  EXTRACT : date_part -> Timestamp -> Z;
  Geography : Type;
  ST_GeogPoint : Q -> Q -> Geography;
  ST_SnapToGrid : Geography -> Q -> Geography;
  ST_AsText : Geography -> string;
  ST_Distance : Geography -> Geography -> Q
}.

Section Engine.

Context `{SqlEngine}.

(** A row of [bigquery-public-data.chicago_taxi_trips.taxi_trips], with the
    columns the script reads. *)
Record taxi_trip : Type := {
  trip_start_timestamp : option Timestamp;
  trip_seconds : option Z;
  trip_miles : option Q;
  payment_type : option string;
  pickup_longitude : option Q;
  pickup_latitude : option Q;
  dropoff_longitude : option Q;
  dropoff_latitude : option Q;
  tips : option Q;
  fare : option Q
}.

(** A row of the prepared table. [p_split] is the column [data_split],
    respectively [ML_use]. *)
Record prepared : Type := {
  p_trip_start_timestamp : option Timestamp;
  p_trip_month : option Z;
  p_trip_day : option Z;
  p_trip_day_of_week : option Z;
  p_trip_hour : option Z;
  p_trip_seconds : option Z;
  p_trip_miles : option Q;
  p_payment_type : option string;
  p_pickup_grid : option string;
  p_dropoff_grid : option string;
  p_euclidean : option Q;
  p_loc_cross : option string;
  p_tip_bin : Z;
  p_split : string
}.

(** The [WHERE] clause of the [taxitrips] subquery. *)
Definition where_clause (year : Z) (t : taxi_trip) : option bool :=
  and3 (and3 (and3 (and3 (and3 (and3 (and3 (and3
    (eqz (Some 1) (Some 1))
    (is_not_null (pickup_longitude t)))
    (is_not_null (pickup_latitude t)))
    (is_not_null (dropoff_longitude t)))
    (is_not_null (dropoff_latitude t)))
    (gt (trip_miles t) (Some 0%Q)))
    (gtz (trip_seconds t) (Some 0)))
    (gt (fare t) (Some 0%Q)))
    (eqz (lift1 (EXTRACT YEAR) (trip_start_timestamp t)) (Some year)).

Definition taxitrips (year : Z) (source : list taxi_trip) : list taxi_trip :=
  List.filter (fun t => holds (where_clause year t)) source.

Definition grid (lon lat : option Q) : option string :=
  lift1 ST_AsText
    (lift2 ST_SnapToGrid (lift2 ST_GeogPoint lon lat) (Some (1 # 10))).

(** The outer [SELECT] list, evaluated on one row of [taxitrips] with the
    value [r] that [RAND()] draws for it. *)
Definition select_list (nb : notebook) (r : Q) (t : taxi_trip)
  : result prepared :=
  try label <- tip_bin (tips t) (fare t) in
  Ok {|
    p_trip_start_timestamp := trip_start_timestamp t;
    p_trip_month := lift1 (EXTRACT MONTH) (trip_start_timestamp t);
    p_trip_day := lift1 (EXTRACT DAY) (trip_start_timestamp t);
    p_trip_day_of_week := lift1 (EXTRACT DAYOFWEEK) (trip_start_timestamp t);
    p_trip_hour := lift1 (EXTRACT HOUR) (trip_start_timestamp t);
    p_trip_seconds := trip_seconds t;
    p_trip_miles := trip_miles t;
    p_payment_type := payment_type t;
    p_pickup_grid := grid (pickup_longitude t) (pickup_latitude t);
    p_dropoff_grid := grid (dropoff_longitude t) (dropoff_latitude t);
    p_euclidean :=
      lift2 ST_Distance
        (lift2 ST_GeogPoint (pickup_longitude t) (pickup_latitude t))
        (lift2 ST_GeogPoint (dropoff_longitude t) (dropoff_latitude t));
    p_loc_cross :=
      CONCAT (grid (pickup_longitude t) (pickup_latitude t))
             (grid (dropoff_longitude t) (dropoff_latitude t));
    p_tip_bin := label;
    p_split := split_column nb r
  |}.

(** The rows of the outer [SELECT]; [rand i] is the draw of [RAND()] for the
    [i]-th row. A division by zero in one row aborts the query. *)
Fixpoint select_rows (nb : notebook) (rand : nat -> Q) (i : nat)
    (rows : list taxi_trip) : result (list prepared) :=
  match rows with
  | [] => Ok []
  | t :: rest =>
      try p <- select_list nb (rand i) t in
      try ps <- select_rows nb rand (S i) rest in
      Ok (p :: ps)
  end.

(** The query after [AS]: filter, project, [LIMIT]. *)
Definition prepare_query (nb : notebook) (year : Z) (limit : nat)
    (rand : nat -> Q) (source : list taxi_trip) : result (list prepared) :=
  try ps <- select_rows nb rand 0%nat (taxitrips year source) in
  Ok (firstn limit ps).

(** The conditions of the filter on distance, duration, fare and
    coordinates, read on a source row. *)
Definition meets_filter (t : taxi_trip) : Prop :=
  (exists x, pickup_longitude t = Some x)
  /\ (exists x, pickup_latitude t = Some x)
  /\ (exists x, dropoff_longitude t = Some x)
  /\ (exists x, dropoff_latitude t = Some x)
  /\ (exists m, trip_miles t = Some m /\ (0 < m)%Q)
  /\ (exists d, trip_seconds t = Some d /\ 0 < d)
  /\ (exists f, fare t = Some f /\ (0 < f)%Q).

(** The tip of [t] is known and at least a fifth of the fare [f]. *)
Definition tips_a_fifth (t : taxi_trip) (f : Q) : Prop :=
  exists x, tips t = Some x /\ (2 # 10 <= x / f)%Q.

(** The prepared row [p] is the outer [SELECT] list evaluated on [t]. *)
Definition selected_from (nb : notebook) (t : taxi_trip) (p : prepared)
  : Prop :=
  exists r, select_list nb r t = Ok p.

End Engine.

(** The share of [UNASSIGNED] among the [n] equally spaced draws
    [0/n, 1/n, ..., (n-1)/n] of the unit interval. *)
Definition unassigned_count (split : Q -> string) (n : nat) : nat :=
  length
    (List.filter
       (fun k => String.eqb (split (Z.of_nat k # Pos.of_nat n)) UNASSIGNED)
       (seq 0 n)).

(** A stand-in for the builtins, to run the query on sample rows: a
    timestamp is its year, a geography its two coordinates. *)
Definition sample_engine : SqlEngine := {|
  Timestamp := Z;
  EXTRACT := fun part ts => match part with YEAR => ts | _ => 1 end;
  Geography := Q * Q;
  ST_GeogPoint := fun lon lat => (lon, lat);
  ST_SnapToGrid := fun g _ => g;
  ST_AsText := fun _ => "POINT"%string;
  ST_Distance := fun _ _ => 0%Q
|}.

Definition sample_trip (miles tip paid : Q) : @taxi_trip sample_engine := {|
  trip_start_timestamp := Some (2020 : @Timestamp sample_engine);
  trip_seconds := Some 600;
  trip_miles := Some miles;
  payment_type := Some "Cash"%string;
  pickup_longitude := Some (-876 # 10)%Q;
  pickup_latitude := Some (419 # 10)%Q;
  dropoff_longitude := Some (-877 # 10)%Q;
  dropoff_latitude := Some (418 # 10)%Q;
  tips := Some tip;
  fare := Some paid
|}.

(** Three rows: a trip tipped a quarter of the fare, one with no fare, one
    tipped a tenth. *)
Definition sample_source : list (@taxi_trip sample_engine) :=
  [ sample_trip 2 (25 # 10) 10; sample_trip 1 0 0; sample_trip 3 1 10 ].

End DataPrep.

(** ** Placeholder substitution in the SQL script *)

Module Template.
Import DataPrep.

(** *** [str.replace] *)

(** [s.replace('', new)] puts [new] before every character and at the end. *)
Fixpoint replace_empty (new s : string) : string :=
  match s with
  | EmptyString => new
  | String c s' => new +:+ String c (replace_empty new s')
  end.

(** [s] starts with [old]. *)
Fixpoint starts_with (old s : string) : bool :=
  match old, s with
  | EmptyString, _ => true
  | String a old', String b s' => Ascii.eqb a b && starts_with old' s'
  | String _ _, EmptyString => false
  end.

(** Left-to-right scan for [old]; [skip] counts the characters of a match
    still to be passed over, so that occurrences do not overlap. *)
Fixpoint replace_from (old new : string) (skip : nat) (s : string) : string :=
  match s with
  | EmptyString => EmptyString
  | String c s' =>
      match skip with
      | S k => replace_from old new k s'
      | O =>
          if starts_with old s
          then new +:+ replace_from old new (String.length old - 1) s'
          else String c (replace_from old new 0 s')
      end
  end.

(** [s.replace(old, new)]. *)
Definition replace (old new s : string) : string :=
  match old with
  | EmptyString => replace_empty new s
  | String _ _ => replace_from old new 0 s
  end.

(** [str(n)] for an [int]. *)
Definition str (n : Z) : string := NilZero.string_of_int (Z.to_int n).

(** *** The script *)

Definition table_line (nb : notebook) : string :=
  match nb with
  | DataAnalysis => "CREATE OR REPLACE TABLE `@PROJECT.@DATASET.@TABLE` "
  | DatasetManagement => "CREATE OR REPLACE TABLE `@PROJECT_ID.@DATASET.@TABLE` "
  end.

Definition split_line (nb : notebook) : string :=
  match nb with
  | DataAnalysis => "      IF(RAND() > 0.8, 'UNASSIGNED', 'TEST') AS data_split"
  | DatasetManagement => "      IF(RAND() <= 0.8, 'UNASSIGNED', 'TEST') AS ML_use"
  end.

Definition newline : string := String (ascii_of_nat 10) EmptyString.

(** The triple-quoted [sql_script] of the notebook [nb]. *)
Definition sql_script (nb : notebook) : string :=
  newline +:+ table_line nb +:+ "
AS (
    WITH
      taxitrips AS (
      SELECT
        trip_start_timestamp,
        trip_seconds,
        trip_miles,
        payment_type,
        pickup_longitude,
        pickup_latitude,
        dropoff_longitude,
        dropoff_latitude,
        tips,
        fare
      FROM
        `bigquery-public-data.chicago_taxi_trips.taxi_trips`
      WHERE 1=1 
      AND pickup_longitude IS NOT NULL
      AND pickup_latitude IS NOT NULL
      AND dropoff_longitude IS NOT NULL
      AND dropoff_latitude IS NOT NULL
      AND trip_miles > 0
      AND trip_seconds > 0
      AND fare > 0
      AND EXTRACT(YEAR FROM trip_start_timestamp) = @YEAR
    )

    SELECT
      trip_start_timestamp,
      EXTRACT(MONTH from trip_start_timestamp) as trip_month,
      EXTRACT(DAY from trip_start_timestamp) as trip_day,
      EXTRACT(DAYOFWEEK from trip_start_timestamp) as trip_day_of_week,
      EXTRACT(HOUR from trip_start_timestamp) as trip_hour,
      trip_seconds,
      trip_miles,
      payment_type,
      ST_AsText(
          ST_SnapToGrid(ST_GeogPoint(pickup_longitude, pickup_latitude), 0.1)
      ) AS pickup_grid,
      ST_AsText(
          ST_SnapToGrid(ST_GeogPoint(dropoff_longitude, dropoff_latitude), 0.1)
      ) AS dropoff_grid,
      ST_Distance(
          ST_GeogPoint(pickup_longitude, pickup_latitude), 
          ST_GeogPoint(dropoff_longitude, dropoff_latitude)
      ) AS euclidean,
      CONCAT(
          ST_AsText(ST_SnapToGrid(ST_GeogPoint(pickup_longitude,
              pickup_latitude), 0.1)), 
          ST_AsText(ST_SnapToGrid(ST_GeogPoint(dropoff_longitude,
              dropoff_latitude), 0.1))
      ) AS loc_cross,
      IF((tips/fare >= 0.2), 1, 0) AS tip_bin,
" +:+ split_line nb +:+ "
    FROM
      taxitrips
    LIMIT @LIMIT
)
".

(** The name the script is written with for the project. *)
Definition project_placeholder (nb : notebook) : string :=
  match nb with
  | DataAnalysis => "@PROJECT"
  | DatasetManagement => "@PROJECT_ID"
  end.

(** The chain of [replace] calls applied to [sql_script]. *)
Definition substitute (nb : notebook)
    (PROJECT BQ_DATASET_NAME BQ_TABLE_NAME : string) (year sample_size : Z)
  : string :=
  replace "@LIMIT" (str sample_size)
    (replace "@YEAR" (str year)
      (replace "@TABLE" BQ_TABLE_NAME
        (replace "@DATASET" BQ_DATASET_NAME
          (replace (project_placeholder nb) PROJECT (sql_script nb))))).

(** *** Simultaneous substitution *)

(** The first binding of [bs] whose placeholder starts [s]. *)
Fixpoint find_placeholder (bs : list (string * string)) (s : string)
  : option (string * string) :=
  match bs with
  | [] => None
  | (old, new) :: bs' =>
      if starts_with old s then Some (old, new) else find_placeholder bs' s
  end.

Fixpoint substitute_from (bs : list (string * string)) (skip : nat)
    (s : string) : string :=
  match s with
  | EmptyString => EmptyString
  | String c s' =>
      match skip with
      | S k => substitute_from bs k s'
      | O =>
          match find_placeholder bs s with
          | Some (old, new) =>
              new +:+ substitute_from bs (String.length old - 1) s'
          | None => String c (substitute_from bs 0 s')
          end
      end
  end.

(** The template with every occurrence of a placeholder of [bs] replaced by
    its value, in one pass, and every other character kept: values that
    were put in are not looked at again. *)
Definition substitute_simultaneously (bs : list (string * string))
    (s : string) : string :=
  substitute_from bs 0 s.

Definition bindings (nb : notebook)
    (PROJECT BQ_DATASET_NAME BQ_TABLE_NAME : string) (year sample_size : Z)
  : list (string * string) :=
  [ (project_placeholder nb, PROJECT);
    ("@DATASET", BQ_DATASET_NAME);
    ("@TABLE", BQ_TABLE_NAME);
    ("@YEAR", str year);
    ("@LIMIT", str sample_size) ]%string.

(** *** Templates as literal text and holes *)

Inductive token : Type :=
| Lit (s : string)
| Hole (name : string).

Fixpoint render (toks : list token) : string :=
  match toks with
  | [] => EmptyString
  | Lit s :: rest => s +:+ render rest
  | Hole n :: rest => n +:+ render rest
  end.

Definition is_at (c : ascii) : bool := Ascii.eqb c "@".

Fixpoint no_at (s : string) : bool :=
  match s with
  | EmptyString => true
  | String c s' => negb (is_at c) && no_at s'
  end.

Definition is_name_char (c : ascii) : bool :=
  let n := nat_of_ascii c in
  ((65 <=? n)%nat && (n <=? 90)%nat) || Ascii.eqb c "_".

(** The longest run of name characters at the start of [s], and the rest. *)
Fixpoint span_name (s : string) : string * string :=
  match s with
  | EmptyString => (EmptyString, EmptyString)
  | String c s' =>
      if is_name_char c
      then let (n, r) := span_name s' in (String c n, r)
      else (EmptyString, s)
  end.

Definition cons_lit (s : string) (toks : list token) : list token :=
  match s with
  | EmptyString => toks
  | String _ _ => Lit s :: toks
  end.

(** Splits a template at every ['@'] followed by capitals and underscores. *)
Fixpoint tokenize (s : string) : list token :=
  match s with
  | EmptyString => []
  | String c s' =>
      if is_at c then
        match tokenize s' with
        | Lit l :: rest =>
            let (n, r) := span_name l in Hole (String c n) :: cons_lit r rest
        | rest => Hole (String c EmptyString) :: rest
        end
      else
        match tokenize s' with
        | Lit l :: rest => Lit (String c l) :: rest
        | rest => Lit (String c EmptyString) :: rest
        end
  end.

(** [fill_all bs toks] puts the value of [bs] in every hole it names. *)
Fixpoint lookup_binding (bs : list (string * string)) (n : string)
  : option string :=
  match bs with
  | [] => None
  | (old, new) :: bs' =>
      if String.eqb old n then Some new else lookup_binding bs' n
  end.

Fixpoint fill_all (bs : list (string * string)) (toks : list token)
  : list token :=
  match toks with
  | [] => []
  | Lit s :: rest => Lit s :: fill_all bs rest
  | Hole n :: rest =>
      match lookup_binding bs n with
      | Some v => Lit v :: fill_all bs rest
      | None => Hole n :: fill_all bs rest
      end
  end.

(** Two names part ways at some position: neither starts the other. *)
Fixpoint diverge (a b : string) : bool :=
  match a, b with
  | String x a', String y b' => if Ascii.eqb x y then diverge a' b' else true
  | _, _ => false
  end.

Definition placeholder_ok (k : string) : bool :=
  match k with
  | String c k' => is_at c && no_at k'
  | EmptyString => false
  end.

Definition hole_ok (keys : list string) (n : string) : bool :=
  placeholder_ok n
  && forallb (fun k => String.eqb k n || diverge k n) keys.

Fixpoint tokens_ok (keys : list string) (toks : list token) : bool :=
  match toks with
  | [] => true
  | Lit s :: rest => no_at s && tokens_ok keys rest
  | Hole n :: rest => hole_ok keys n && tokens_ok keys rest
  end.

Definition placeholders (nb : notebook) : list string :=
  [ project_placeholder nb; "@DATASET"; "@TABLE"; "@YEAR"; "@LIMIT" ]%string.

End Template.

(** ** Calls into the platform clients *)

Module Py.

(** A call either returns or raises; nothing in the notebooks catches. *)
Inductive call (A : Type) : Type :=
| Returned (a : A)
| Raised (e : string).
Arguments Returned {A} a.
Arguments Raised {A} e.

End Py.

(** ** Polling the custom training job *)

Module Polling.
Import Py.

(** What [get_custom_job] answers, with the fields the loop reads; times
    are in seconds. [state_name] is [response.state.name]. *)
Record CustomJob : Type := {
  state_name : string;
  create_time : Z;
  update_time : Z;
  start_time : Z;
  end_time : Z
}.

Inductive printed : Type :=
| PStr (s : string)
| PDelta (seconds : Z).

(** The notebook process as the loop sees it: how often the job was
    polled, for how long the loop slept, and the lines printed. *)
Record world : Type := {
  polls : nat;
  slept : Z;
  stdout : list (list printed)
}.

Definition polled (w : world) : world :=
  {| polls := S (polls w); slept := slept w; stdout := stdout w |}.

Definition print (args : list printed) (w : world) : world :=
  {| polls := polls w; slept := slept w; stdout := stdout w ++ [args] |}.

Definition sleep (seconds : Z) (w : world) : world :=
  {| polls := polls w; slept := slept w + seconds; stdout := stdout w |}.

Inductive control : Type := Break | Continue.

(** One pass through the body of [while True], after [get_custom_job]
    returned [response]. *)
Definition loop_body (response : CustomJob) (w : world) : control * world :=
  if String.eqb (state_name response) "JOB_STATE_SUCCEEDED" then
    (Break,
     print [PStr "Training Job Time:";
            PDelta (end_time response - start_time response)]
       (print [PStr "Training job completed. - Training Elapsed Time:";
               PDelta (update_time response - create_time response)] w))
  else if String.eqb (state_name response) "JOB_STATE_FAILED" then
    (Break, print [PStr "Training job failed!"] w)
  else
    (Continue,
     sleep 60
       (print [PStr ("Training job state is: " +:+ state_name response
                     +:+ ".")] w)).

Inductive outcome : Type :=
| Finished
| Exception (e : string)
| StillPolling.

(** The loop, for at most [fuel] passes. [get_custom_job n] is what the
    job service answers to the [n]-th call. *)
Fixpoint monitor_job_state (fuel : nat) (get_custom_job : nat -> call CustomJob)
    (w : world) : outcome * world :=
  match fuel with
  | O => (StillPolling, w)
  | S fuel' =>
      match get_custom_job (polls w) with
      | Raised e => (Exception e, polled w)
      | Returned response =>
          match loop_body response (polled w) with
          | (Break, w') => (Finished, w')
          | (Continue, w') => monitor_job_state fuel' get_custom_job w'
          end
      end
  end.

Definition start : world := {| polls := 0; slept := 0; stdout := [] |}.

Definition terminal (name : string) : Prop :=
  name = "JOB_STATE_SUCCEEDED"%string \/ name = "JOB_STATE_FAILED"%string.

(** The [n]-th call returns a job in a state the loop stops at. *)
Definition stops_at (get_custom_job : nat -> call CustomJob) (n : nat) : Prop :=
  exists response,
    get_custom_job n = Returned response /\ terminal (state_name response).

(** The [n]-th call returns a job in any other state. *)
Definition goes_on_at (get_custom_job : nat -> call CustomJob) (n : nat)
  : Prop :=
  exists response,
    get_custom_job n = Returned response /\ ~ terminal (state_name response).

Definition job_in_state (name : string) : CustomJob :=
  {| state_name := name; create_time := 0; update_time := 0;
     start_time := 0; end_time := 0 |}.

End Polling.

(** ** The model monitoring job *)

Module Monitoring.
Import Py.

(** The numbers a threshold table may hold, and [float(value)]. The tables
    of the notebook hold floats; an integer is taken as the double of the
    same value, which [float] gives for the integers a double holds exactly
    (all up to [2^53] in magnitude). *)
Inductive pynum : Type :=
| PyInt (z : Z)
| PyFloat (q : Q).

Definition float (v : pynum) : Q :=
  match v with
  | PyInt z => inject_Z z
  | PyFloat q => q
  end.

Record ThresholdConfig : Type := { value : Q }.

Record TrainingPredictionSkewDetectionConfig : Type := {
  skew_thresholds : gmap string ThresholdConfig
}.

Record PredictionDriftDetectionConfig : Type := {
  drift_thresholds : gmap string ThresholdConfig
}.

Record TrainingDataset : Type := {
  target_field : string;
  bigquery_source : string
}.

Record ModelMonitoringObjectiveConfig : Type := {
  training_dataset : TrainingDataset;
  training_prediction_skew_detection_config :
    TrainingPredictionSkewDetectionConfig;
  prediction_drift_detection_config : PredictionDriftDetectionConfig
}.

Record ModelDeploymentMonitoringObjectiveConfig : Type := {
  deployed_model_id : string;
  objective_config : ModelMonitoringObjectiveConfig
}.

Record SamplingStrategy : Type := { sample_rate : Q }.

Record ModelDeploymentMonitoringScheduleConfig : Type := {
  monitor_interval : Z
}.

(** [user_emails] is a repeated field: assigned a string, it takes the
    characters of the string one by one. *)
Record ModelMonitoringAlertConfig : Type := { user_emails : list string }.

Record ModelDeploymentMonitoringJob : Type := {
  name : string;
  display_name : string;
  endpoint : string;
  model_deployment_monitoring_objective_configs :
    list ModelDeploymentMonitoringObjectiveConfig;
  logging_sampling_strategy : SamplingStrategy;
  model_deployment_monitoring_schedule_config :
    ModelDeploymentMonitoringScheduleConfig;
  model_monitoring_alert_config : ModelMonitoringAlertConfig
}.

(** *** Configuration cells *)

Definition ENDPOINT_DISPLAY_NAME : string := "chicago-taxi-tips-classifier".
Definition MONITORING_JOB_NAME : string := "monitor-" +:+ ENDPOINT_DISPLAY_NAME.
Definition NOTIFY_EMAILS : string := "[your-email-address]".
Definition LOG_SAMPLE_RATE : Q := 8 # 10.
Definition MONITOR_INTERVAL : Z := 3600.
Definition TARGET_FEATURE_NAME : string := "tip_bin".

Definition SKEW_THRESHOLDS : gmap string pynum :=
  list_to_map
    [ ("trip_month", PyFloat (3 # 10)); ("trip_day", PyFloat (3 # 10));
      ("trip_day_of_week", PyFloat (3 # 10)); ("trip_hour", PyFloat (3 # 10));
      ("trip_seconds", PyFloat (3 # 10)); ("trip_miles", PyFloat (3 # 10));
      ("payment_type", PyFloat (3 # 10)); ("pickup_grid", PyFloat (3 # 10));
      ("dropoff_grid", PyFloat (3 # 10)); ("euclidean", PyFloat (3 # 10));
      ("loc_cross", PyFloat (3 # 10)) ]%string.

Definition DIRFT_THRESHOLDS : gmap string pynum :=
  list_to_map
    [ ("trip_month", PyFloat (3 # 10)); ("trip_day", PyFloat (3 # 10));
      ("trip_day_of_week", PyFloat (3 # 10)); ("trip_hour", PyFloat (3 # 10));
      ("trip_seconds", PyFloat (3 # 10)); ("trip_miles", PyFloat (3 # 10));
      ("payment_type", PyFloat (3 # 10)); ("pickup_grid", PyFloat (3 # 10));
      ("dropoff_grid", PyFloat (3 # 10)); ("euclidean", PyFloat (3 # 10));
      ("loc_cross", PyFloat (3 # 10)) ]%string.

(** *** Configuring the job *)

(** [{feature: ThresholdConfig(value=float(value)) for feature, value in
    table.items()}]. *)
Definition thresholds (table : gmap string pynum)
  : gmap string ThresholdConfig :=
  (fun v => {| value := float v |}) <$> table.

(** [objective_template]; its [deployed_model_id] is left unset. *)
Definition objective_template (skew_table drift_table : gmap string pynum)
    (bq_source_uri : string) : ModelDeploymentMonitoringObjectiveConfig :=
  {| deployed_model_id := EmptyString;
     objective_config :=
       {| training_dataset :=
            {| target_field := TARGET_FEATURE_NAME;
               bigquery_source := bq_source_uri |};
          training_prediction_skew_detection_config :=
            {| skew_thresholds := thresholds skew_table |};
          prediction_drift_detection_config :=
            {| drift_thresholds := thresholds drift_table |} |} |}.

(** [objective_config.deployed_model_id = model_id] on a deep copy: the
    copy shares nothing with the template, so it is a value of its own. *)
Definition set_deployed_model_id
    (c : ModelDeploymentMonitoringObjectiveConfig) (model_id : string)
  : ModelDeploymentMonitoringObjectiveConfig :=
  {| deployed_model_id := model_id; objective_config := objective_config c |}.

(** The loop over [model_ids] that appends one objective per model. *)
Definition deployment_objective_configs
    (template : ModelDeploymentMonitoringObjectiveConfig)
    (model_ids : list string)
  : list ModelDeploymentMonitoringObjectiveConfig :=
  fold_left
    (fun configs model_id => configs ++ [set_deployed_model_id template model_id])
    model_ids [].

(** The job handed to the job service; its resource [name] is unset. *)
Definition monitoring_job (skew_table drift_table : gmap string pynum)
    (bq_source_uri endpoint_uri : string) (model_ids : list string)
  : ModelDeploymentMonitoringJob :=
  {| name := EmptyString;
     display_name := MONITORING_JOB_NAME;
     endpoint := endpoint_uri;
     model_deployment_monitoring_objective_configs :=
       deployment_objective_configs
         (objective_template skew_table drift_table bq_source_uri) model_ids;
     logging_sampling_strategy := {| sample_rate := LOG_SAMPLE_RATE |};
     model_deployment_monitoring_schedule_config :=
       {| monitor_interval := MONITOR_INTERVAL |};
     model_monitoring_alert_config :=
       {| user_emails :=
            map (fun c => String c EmptyString)
              (list_ascii_of_string NOTIFY_EMAILS) |} |}.

(** *** Getting the job back *)

(** [[entry for entry in monitoring_jobs
      if entry.display_name == MONITORING_JOB_NAME][0]]. *)
Definition select_monitoring_job (monitoring_jobs : list ModelDeploymentMonitoringJob)
  : call ModelDeploymentMonitoringJob :=
  match
    List.filter (fun entry => String.eqb (display_name entry) MONITORING_JOB_NAME)
      monitoring_jobs
  with
  | entry :: _ => Returned entry
  | [] => Raised "IndexError"
  end.

(** The skew and drift thresholds an objective carries. *)
Definition skew_of (c : ModelDeploymentMonitoringObjectiveConfig)
  : gmap string ThresholdConfig :=
  skew_thresholds (training_prediction_skew_detection_config (objective_config c)).

Definition drift_of (c : ModelDeploymentMonitoringObjectiveConfig)
  : gmap string ThresholdConfig :=
  drift_thresholds (prediction_drift_detection_config (objective_config c)).





End Monitoring.

(** ** The destination table *)

Module Warehouse.
Import Sql DataPrep.

Section Tables.

Context `{SqlEngine}.

(** [CREATE OR REPLACE TABLE dest AS (...)]: the table [dest] becomes the
    rows of the query, whatever it held. The tables of the warehouse are
    keyed by their path [project.dataset.table]. *)
Definition create_or_replace_table (dest : string) (rows : list prepared)
    (tables : gmap string (list prepared)) : gmap string (list prepared) :=
  <[dest := rows]> tables.

(** One run of the script; a query that aborts leaves the tables alone. *)
Definition run_script (nb : notebook) (dest : string) (year : Z) (limit : nat)
    (rand : nat -> Q) (source : list taxi_trip)
    (tables : gmap string (list prepared))
  : result (gmap string (list prepared)) :=
  try rows <- prepare_query nb year limit rand source in
  Ok (create_or_replace_table dest rows tables).

End Tables.

End Warehouse.

(** ** Queries and cells that follow the data preparation *)

Module FollowUp.
Import Sql DataPrep Template.

(** One more row with the key [k]: its group is counted up, or opened. *)
Fixpoint count_group (k : string) (groups : list (string * nat))
  : list (string * nat) :=
  match groups with
  | [] => [(k, 1%nat)]
  | (k', n) :: rest =>
      if String.eqb k' k then (k', S n) :: rest
      else (k', n) :: count_group k rest
  end.

(** [SELECT key, COUNT( * ) ... GROUP BY key] over the keys of the rows, the
    groups in the order they are first met. *)
Definition group_by_count (keys : list string) : list (string * nat) :=
  fold_left (fun groups k => count_group k groups) keys [].

(** [SELECT ML_use, COUNT( * ) FROM prepared GROUP BY ML_use], respectively
    with [data_split]. *)
Definition split_counts `{SqlEngine} (table : list prepared)
  : list (string * nat) :=
  group_by_count (map p_split table).

(** A row of [SELECT * EXCEPT (trip_start_timestamp, ML_use)],
    respectively with [data_split]: the sample the statistics and the schema
    are made from. *)
Record sample_row : Type := {
  s_trip_month : option Z;
  s_trip_day : option Z;
  s_trip_day_of_week : option Z;
  s_trip_hour : option Z;
  s_trip_seconds : option Z;
  s_trip_miles : option Q;
  s_payment_type : option string;
  s_pickup_grid : option string;
  s_dropoff_grid : option string;
  s_euclidean : option Q;
  s_loc_cross : option string;
  s_tip_bin : Z
}.

Definition select_except `{SqlEngine} (p : prepared) : sample_row := {|
  s_trip_month := p_trip_month p;
  s_trip_day := p_trip_day p;
  s_trip_day_of_week := p_trip_day_of_week p;
  s_trip_hour := p_trip_hour p;
  s_trip_seconds := p_trip_seconds p;
  s_trip_miles := p_trip_miles p;
  s_payment_type := p_payment_type p;
  s_pickup_grid := p_pickup_grid p;
  s_dropoff_grid := p_dropoff_grid p;
  s_euclidean := p_euclidean p;
  s_loc_cross := p_loc_cross p;
  s_tip_bin := p_tip_bin p
|}.

Definition sample_data `{SqlEngine} (table : list prepared)
  : list sample_row :=
  map select_except table.

(** The pass of the chain of [replace] calls over any script: the cell
    assigns its result to [sql_script] again. *)
Definition replace_placeholders (nb : notebook)
    (PROJECT BQ_DATASET_NAME BQ_TABLE_NAME : string) (year sample_size : Z)
    (script : string) : string :=
  replace "@LIMIT" (str sample_size)
    (replace "@YEAR" (str year)
      (replace "@TABLE" BQ_TABLE_NAME
        (replace "@DATASET" BQ_DATASET_NAME
          (replace (project_placeholder nb) PROJECT script)))).

(** The text after the first [n] characters. *)
Fixpoint string_drop (n : nat) (s : string) : string :=
  match n, s with
  | S n', String _ s' => string_drop n' s'
  | _, _ => s
  end.

(** [f'bq://{PROJECT_ID}.{BQ_DATASET_NAME}.{BQ_TABLE_NAME}'], the source the
    dataset resource is created on. *)
Definition bq_uri (PROJECT BQ_DATASET_NAME BQ_TABLE_NAME : string) : string :=
  "bq://" +:+ PROJECT +:+ "." +:+ BQ_DATASET_NAME +:+ "." +:+ BQ_TABLE_NAME.

End FollowUp.

(** ** What the polling loop prints *)

Module PollingLog.
Import Py Polling.

(** A job service that answers the first calls with [responses], in order,
    and every later call with [last]. *)
Definition answers (responses : list CustomJob) (last : call CustomJob)
  : nat -> call CustomJob :=
  fun n =>
    match nth_error responses n with
    | Some response => Returned response
    | None => last
    end.

Definition progress_line (response : CustomJob) : list printed :=
  [PStr ("Training job state is: " +:+ state_name response +:+ ".")].

Definition closing_lines (response : CustomJob) : list (list printed) :=
  if String.eqb (state_name response) "JOB_STATE_SUCCEEDED" then
    [ [PStr "Training job completed. - Training Elapsed Time:";
       PDelta (update_time response - create_time response)];
      [PStr "Training Job Time:";
       PDelta (end_time response - start_time response)] ]
  else [ [PStr "Training job failed!"] ].

End PollingLog.

(** ** Setup cells, run identifiers and directories *)

Module Setup.
Import Py Template.

(** [v == '' or v is None or v == placeholder]. *)
Definition unset (placeholder : string) (v : option string) : bool :=
  match v with
  | None => true
  | Some s => String.eqb s "" || String.eqb s placeholder
  end.

(** [shell_output[0]] on the lines a shell command printed. *)
Definition first_line (shell_output : list string) : call string :=
  match shell_output with
  | line :: _ => Returned line
  | [] => Raised "IndexError"
  end.

(** A setting left unset is read from the output of [gcloud]. *)
Definition resolve (placeholder : string) (v : option string)
    (shell_output : list string) : call (option string) :=
  if unset placeholder v then
    match first_line shell_output with
    | Returned line => Returned (Some line)
    | Raised e => Raised e
    end
  else Returned v.

Record settings : Type := {
  PROJECT_ID : option string;
  SERVICE_ACCOUNT : option string;
  BUCKET : option string
}.

(** The setup cell of the experimentation notebook, from the three settings
    as written in the cell and the lines the two [gcloud] commands print. *)
Definition setup_cell (written : settings)
    (gcloud_project gcloud_account : list string) : call settings :=
  match resolve "[your-project-id]" (PROJECT_ID written) gcloud_project with
  | Raised e => Raised e
  | Returned project =>
      match
        resolve "[your-service-account]" (SERVICE_ACCOUNT written)
          gcloud_account
      with
      | Raised e => Raised e
      | Returned account =>
          Returned
            {| PROJECT_ID := project;
               SERVICE_ACCOUNT := account;
               BUCKET :=
                 if unset "[your-bucket-name]" (BUCKET written) then project
                 else BUCKET written |}
      end
  end.

(** *** [os.path.join] *)

Fixpoint ends_with_slash (s : string) : bool :=
  match s with
  | EmptyString => false
  | String c EmptyString => Ascii.eqb c "/"
  | String _ s' => ends_with_slash s'
  end.

(** One round of the loop of [posixpath.join]. *)
Definition join_step (path b : string) : string :=
  if starts_with "/" b then b
  else if String.eqb path "" || ends_with_slash path then path +:+ b
  else path +:+ "/" +:+ b.

Definition join (a : string) (p : list string) : string :=
  fold_left join_step p a.

(** *** Run identifiers *)

Record datetime : Type := {
  year : Z; month : Z; day : Z;
  hour : Z; minute : Z; second : Z
}.

Definition digit (n : Z) : ascii := ascii_of_nat (48 + Z.to_nat (n mod 10)).

Definition two_digits (n : Z) : string :=
  String (digit (n / 10)) (String (digit n) EmptyString).

(** [now.strftime("%Y%m%d%H%M%S")], for a year of four digits. *)
Definition strftime (now : datetime) : string :=
  two_digits (year now / 100) +:+ two_digits (year now mod 100)
  +:+ two_digits (month now) +:+ two_digits (day now)
  +:+ two_digits (hour now) +:+ two_digits (minute now)
  +:+ two_digits (second now).

(** A date and time of day as [datetime.now()] gives them. *)
Definition well_formed (now : datetime) : Prop :=
  1000 <= year now <= 9999 /\ 1 <= month now <= 12 /\ 1 <= day now <= 31
  /\ 0 <= hour now <= 23 /\ 0 <= minute now <= 59 /\ 0 <= second now <= 59.

Inductive run_kind : Type := Local | Gcp.

(** [f'run-local-{...}'] and [f'run-gcp-{...}']. *)
Definition run_id (kind : run_kind) (now : datetime) : string :=
  match kind with
  | Local => "run-local-" +:+ strftime now
  | Gcp => "run-gcp-" +:+ strftime now
  end.

(** *** Directories of the experimentation notebook *)

Definition VERSION : string := "v1".
Definition DATASET_DISPLAY_NAME : string := "chicago-taxi-tips".
Definition MODEL_DISPLAY_NAME : string :=
  DATASET_DISPLAY_NAME +:+ "-classifier-" +:+ VERSION.
Definition EXPERIMENT_NAME : string := MODEL_DISPLAY_NAME +:+ "-experiment".

Definition WORKSPACE (bucket : string) : string :=
  "gs://" +:+ bucket +:+ "/" +:+ DATASET_DISPLAY_NAME.

Definition EXPERIMENT_ARTIFACTS_DIR (bucket : string) : string :=
  join (WORKSPACE bucket) ["experiments"%string].

Definition EXPERIMENT_RUN_DIR (bucket : string) (kind : run_kind)
    (now : datetime) : string :=
  join (EXPERIMENT_ARTIFACTS_DIR bucket) [EXPERIMENT_NAME; run_id kind now].

(** [os.path.join(EXPERIMENT_RUN_DIR, name)] for the data, artifact, log and
    model directories of a run. *)
Definition run_subdir (bucket : string) (kind : run_kind) (now : datetime)
    (name : string) : string :=
  join (EXPERIMENT_RUN_DIR bucket kind now) [name].

End Setup.

(** ** The experiment artifacts directory *)

Module Workspace.

(** The three operations of [tf.io.gfile] the cell uses, over the state
    [Files] of the file system. *)
Class GFile (Files : Type) : Type := {
  gfile_exists : Files -> string -> bool;
  gfile_rmtree : string -> Files -> Files;
  gfile_mkdir : string -> Files -> Files
}.

(** The cell that prepares the directory; the lines it prints come with
    the file system it leaves. *)
Definition prepare_workspace `{GFile Files}
    (REMOVE_EXPERIMENT_ARTIFACTS : bool) (dir : string) (fs : Files)
  : Files * list string :=
  let '(fs1, out1) :=
    if gfile_exists fs dir && REMOVE_EXPERIMENT_ARTIFACTS
    then (gfile_rmtree dir fs, ["Removing previous experiment artifacts..."%string])
    else (fs, []) in
  let '(fs2, out2) :=
    if negb (gfile_exists fs1 dir)
    then (gfile_mkdir dir fs1,
          ["Creating new experiment artifacts directory..."%string])
    else (fs1, []) in
  (fs2, out1 ++ out2 ++ ["Workspace is ready."%string]).

(** A file system as the set of its paths: removing a tree removes the
    directory and the paths below it. *)
Definition below (dir path : string) : bool :=
  String.eqb dir path || Template.starts_with (dir +:+ "/") path.

#[export] Instance path_set : GFile (gset string) := {
  gfile_exists fs path := bool_decide (path ∈ fs);
  gfile_rmtree dir fs := filter (fun path => below dir path = false) fs;
  gfile_mkdir dir fs := {[ dir ]} ∪ fs
}.

End Workspace.

(** ** The bucket of the monitoring artifacts *)

Module Artifacts.
Import Template.

(** [s.split('/')[0]]: what comes before the first slash. *)
Fixpoint before_slash (s : string) : string :=
  match s with
  | EmptyString => EmptyString
  | String c s' =>
      if Ascii.eqb c "/" then EmptyString else String c (before_slash s')
  end.

(** [f"gs://{uri.replace('gs://', '').split('/')[0]}"]. *)
Definition monitoring_job_artifacts_root (predict_instance_schema_uri : string)
  : string :=
  "gs://" +:+ before_slash (replace "gs://" "" predict_instance_schema_uri).

(** No character of [s] is a slash or a colon. *)
Fixpoint plain_name (s : string) : bool :=
  match s with
  | EmptyString => true
  | String c s' =>
      negb (Ascii.eqb c "/") && negb (Ascii.eqb c ":") && plain_name s'
  end.

End Artifacts.

(** ** Code cells and the run of a notebook *)

Module Cells.
Import Py.

(** A top-level statement of a code cell, by the way it can fail: a Python
    statement completes or raises; a shell escape [! command] hands the
    command to the system shell, keeps its exit status in [_exit_code] and
    completes, whatever the status. No cell of the notebooks has a [try]. *)
Inductive statement : Type :=
| Python (code : string)
| Shell (command : string).

(** The kernel a notebook runs in: the statements started so far, in
    order, and [_exit_code]. *)
Record kernel : Type := {
  started : list statement;
  exit_code : Z
}.

Definition fresh : kernel := {| started := []; exit_code := 0 |}.





(** *** The cells that call the services *)

















End Cells.

(** * Properties *)

(** ** The prepared table *)

Module DataPrepFacts.
Import Sql DataPrep.

Lemma holds_and3 (a b : option bool) :
  holds (and3 a b) = true -> holds a = true /\ holds b = true.
Proof.
  destruct a as [[|]|], b as [[|]|]; simpl; intros E; try discriminate E;
    split; reflexivity.
Qed.

Lemma holds_is_not_null {A : Type} (e : option A) :
  holds (is_not_null e) = true -> exists x, e = Some x.
Proof.
  destruct e as [x|]; simpl; intros E; [exists x; reflexivity | discriminate E].
Qed.

Lemma holds_gt_zero (e : option Q) :
  holds (gt e (Some 0%Q)) = true -> exists x, e = Some x /\ (0 < x)%Q.
Proof.
  destruct e as [x|]; simpl; [|discriminate].
  destruct (Qle_bool x 0) eqn:E; simpl; [discriminate|]. intros _.
  exists x. split; [reflexivity|].
  apply Qnot_le_lt. intros L. apply Qle_bool_iff in L. congruence.
Qed.

Lemma holds_gtz_zero (e : option Z) :
  holds (gtz e (Some 0)) = true -> exists x, e = Some x /\ 0 < x.
Proof.
  destruct e as [x|]; simpl; [|discriminate].
  destruct (0 <? x) eqn:E; simpl; [|discriminate]. intros _.
  exists x. split; [reflexivity | apply Z.ltb_lt; exact E].
Qed.

Section Engine.

Context `{SqlEngine}.

Lemma where_clause_meets (year : Z) (t : taxi_trip) :
  holds (where_clause year t) = true -> meets_filter t.
Proof.
  unfold where_clause. intros E.
  repeat (apply holds_and3 in E; let E' := fresh "E" in destruct E as [E E']).
  unfold meets_filter.
  repeat split;
    auto using holds_is_not_null, holds_gt_zero, holds_gtz_zero.
Qed.

Lemma taxitrips_meet (year : Z) (source : list taxi_trip) :
  Forall meets_filter (taxitrips year source).
Proof.
  apply List.Forall_forall. intros t Ht.
  apply filter_In in Ht. destruct Ht as [_ Ht].
  exact (where_clause_meets year t Ht).
Qed.

Lemma div_positive (a : option Q) (f : Q) :
  (0 < f)%Q -> exists q, div a (Some f) = Ok q.
Proof.
  intros Hf. destruct a as [x|]; simpl; [|eexists; reflexivity].
  destruct (Qeq_bool f 0) eqn:E; [|eexists; reflexivity].
  apply Qeq_bool_iff in E. rewrite E in Hf. inversion Hf.
Qed.

Lemma select_list_meets (nb : notebook) (r : Q) (t : taxi_trip) :
  meets_filter t -> exists p, select_list nb r t = Ok p.
Proof.
  intros (_ & _ & _ & _ & _ & _ & f & Ef & Hf).
  unfold select_list, tip_bin. rewrite Ef.
  destruct (div_positive (tips t) f Hf) as [q Eq]. rewrite Eq. simpl.
  eexists; reflexivity.
Qed.

Lemma select_rows_total (nb : notebook) (rand : nat -> Q)
    (rows : list taxi_trip) :
  Forall meets_filter rows ->
  forall i, exists ps,
    select_rows nb rand i rows = Ok ps
    /\ Forall2 (selected_from nb) rows ps.
Proof.
  induction 1 as [|t rows Ht _ IH]; intros i; simpl.
  - exists []. split; [reflexivity | constructor].
  - destruct (select_list_meets nb (rand i) t Ht) as [p Ep].
    destruct (IH (S i)) as (ps & Eps & Hps).
    rewrite Ep, Eps. simpl. exists (p :: ps).
    split; [reflexivity|]. constructor; [exists (rand i); exact Ep | exact Hps].
Qed.

Lemma Forall2_firstn {A B : Type} (R : A -> B -> Prop) (n : nat)
    (l : list A) (k : list B) :
  Forall2 R l k -> Forall2 R (firstn n l) (firstn n k).
Proof.
  intros F. revert n.
  induction F as [|a b l k Hab _ IH]; intros [|n]; simpl;
    constructor; auto.
Qed.

(** The query never aborts, and its rows are, in order, the [SELECT] list
    on the first [limit] rows that pass the filter. *)
Lemma prepare_query_total (nb : notebook) (year : Z) (limit : nat)
    (rand : nat -> Q) (source : list taxi_trip) :
  exists out,
    prepare_query nb year limit rand source = Ok out
    /\ Forall2 (selected_from nb) (firstn limit (taxitrips year source)) out.
Proof.
  unfold prepare_query.
  destruct (select_rows_total nb rand (taxitrips year source)
              (taxitrips_meet year source) 0%nat) as (ps & Eps & Hps).
  rewrite Eps. simpl. exists (firstn limit ps).
  split; [reflexivity | apply Forall2_firstn; exact Hps].
Qed.

Lemma Forall_firstn {A : Type} (P : A -> Prop) (n : nat) (l : list A) :
  Forall P l -> Forall P (firstn n l).
Proof.
  intros F. revert n.
  induction F as [|a l Ha _ IH]; intros [|n]; simpl; constructor; auto.
Qed.

Lemma Forall2_and_left {A B : Type} (P : A -> Prop) (R : A -> B -> Prop)
    (l : list A) (k : list B) :
  Forall P l -> Forall2 R l k -> Forall2 (fun a b => P a /\ R a b) l k.
Proof.
  intros F G. induction G as [|a b l k Hab _ IH]; constructor.
  - split; [exact (Forall_inv F) | exact Hab].
  - apply IH. exact (Forall_inv_tail F).
Qed.

Lemma Forall2_impl_rel {A B : Type} (R R' : A -> B -> Prop)
    (l : list A) (k : list B) :
  (forall a b, R a b -> R' a b) -> Forall2 R l k -> Forall2 R' l k.
Proof.
  intros I F. induction F; constructor; auto.
Qed.

Lemma selected_label (nb : notebook) (t : taxi_trip) (p : prepared) :
  meets_filter t -> selected_from nb t p ->
  exists f,
    fare t = Some f /\ (0 < f)%Q
    /\ (p_tip_bin p = 1 <-> tips_a_fifth t f)
    /\ (p_tip_bin p = 0 <-> ~ tips_a_fifth t f).
Proof.
  intros (_ & _ & _ & _ & _ & _ & f & Ef & Hf) [r Er].
  exists f. split; [exact Ef|]. split; [exact Hf|].
  unfold select_list, tip_bin in Er. rewrite Ef in Er.
  unfold tips_a_fifth.
  destruct (tips t) as [x|] eqn:Et; simpl in Er.
  - destruct (Qeq_bool f 0) eqn:E0.
    + apply Qeq_bool_iff in E0. rewrite E0 in Hf. inversion Hf.
    + simpl in Er. injection Er as <-. simpl. unfold IF. simpl.
      destruct (Qle_bool (2 # 10) (x / f)) eqn:E; simpl.
      * apply Qle_bool_iff in E. split; split; intros G.
        -- exists x. split; [reflexivity | exact E].
        -- reflexivity.
        -- discriminate G.
        -- exfalso. apply G. exists x. split; [reflexivity | exact E].
      * assert (N : ~ (2 # 10 <= x / f)%Q).
        { intros L. apply Qle_bool_iff in L. congruence. }
        split; split; intros G.
        -- discriminate G.
        -- destruct G as (y & Ey & Ly). injection Ey as <-. contradiction.
        -- intros (y & Ey & Ly). injection Ey as <-. contradiction.
        -- reflexivity.
  - injection Er as <-. simpl. unfold IF. simpl.
    split; split; intros G.
    + discriminate G.
    + destruct G as (y & Ey & _). discriminate Ey.
    + intros (y & Ey & _). discriminate Ey.
    + reflexivity.
Qed.

Lemma selected_columns (nb : notebook) (t : taxi_trip) (p : prepared) :
  selected_from nb t p ->
  p_trip_miles p = trip_miles t /\ p_trip_seconds p = trip_seconds t.
Proof.
  intros [r Er]. unfold select_list in Er.
  destruct (tip_bin (tips t) (fare t)) as [b|e]; simpl in Er;
    [|discriminate Er].
  injection Er as <-. simpl. split; reflexivity.
Qed.

Lemma taxitrips_from_source (year : Z) (source : list taxi_trip) :
  Forall (fun t => In t source) (taxitrips year source).
Proof.
  apply List.Forall_forall. intros t Ht.
  apply filter_In in Ht. exact (proj1 Ht).
Qed.

(** C2: the label [tip_bin] of every row of the prepared table is 1 exactly
    when the tip of the trip it was computed from is at least 0.2 of its
    fare, and 0 in every other case. *)
Theorem tip_bin_marks_a_fifth (nb : notebook) (year : Z) (limit : nat)
    (rand : nat -> Q) (source : list taxi_trip) :
  exists out,
    prepare_query nb year limit rand source = Ok out
    /\ Forall2
         (fun t p =>
            exists f,
              fare t = Some f /\ (0 < f)%Q
              /\ (p_tip_bin p = 1 <-> tips_a_fifth t f)
              /\ (p_tip_bin p = 0 <-> ~ tips_a_fifth t f))
         (firstn limit (taxitrips year source)) out.
Proof.
  destruct (prepare_query_total nb year limit rand source) as (out & E & F).
  exists out. split; [exact E|].
  apply Forall2_impl_rel
    with (R := fun t p => meets_filter t /\ selected_from nb t p).
  - intros t p [M S]. exact (selected_label nb t p M S).
  - apply Forall2_and_left; [|exact F].
    apply Forall_firstn, taxitrips_meet.
Qed.

(** C3: every row the outer [SELECT] reads has passed the filter, so it has
    positive distance, duration and fare and all four coordinates, and a row
    that misses one of these conditions is not read; each row of the
    prepared table is computed from a row of the source that meets them,
    whose distance and duration it keeps. *)
Theorem prepared_rows_pass_filter (nb : notebook) (year : Z) (limit : nat)
    (rand : nat -> Q) (source : list taxi_trip) :
  Forall meets_filter (taxitrips year source)
  /\ (forall t, ~ meets_filter t -> ~ In t (taxitrips year source))
  /\ exists out,
       prepare_query nb year limit rand source = Ok out
       /\ Forall2
            (fun t p =>
               (In t source /\ meets_filter t)
               /\ selected_from nb t p
               /\ p_trip_miles p = trip_miles t
               /\ p_trip_seconds p = trip_seconds t)
            (firstn limit (taxitrips year source)) out.
Proof.
  split; [apply taxitrips_meet|]. split.
  { intros t N Ht. apply N.
    exact (proj1 (List.Forall_forall _ _) (taxitrips_meet year source) t Ht). }
  destruct (prepare_query_total nb year limit rand source) as (out & E & F).
  exists out. split; [exact E|].
  apply Forall2_impl_rel
    with (R := fun t p =>
                 (In t source /\ meets_filter t) /\ selected_from nb t p).
  - intros t p [M S]. split; [exact M|]. split; [exact S|].
    exact (selected_columns nb t p S).
  - apply Forall2_and_left; [|exact F].
    apply Forall_firstn, List.Forall_and;
      [apply taxitrips_from_source | apply taxitrips_meet].
Qed.

(** C10: every row that reaches the labelling has a known, positive fare,
    the quotient [tips / fare] is computed without error on it, and the
    query as a whole returns rows. *)
Theorem tip_ratio_divisor_positive (nb : notebook) (year : Z) (limit : nat)
    (rand : nat -> Q) (source : list taxi_trip) :
  Forall
    (fun t =>
       exists f q,
         fare t = Some f /\ (0 < f)%Q /\ div (tips t) (fare t) = Ok q)
    (taxitrips year source)
  /\ prepare_query nb year limit rand source <> Err DivisionByZero
  /\ exists out, prepare_query nb year limit rand source = Ok out.
Proof.
  split; [|split].
  - eapply List.Forall_impl; [|apply taxitrips_meet].
    intros t (_ & _ & _ & _ & _ & _ & f & Ef & Hf).
    destruct (div_positive (tips t) f Hf) as [q Eq].
    exists f, q. rewrite Ef. auto.
  - destruct (prepare_query_total nb year limit rand source) as (out & E & _).
    rewrite E. discriminate.
  - destruct (prepare_query_total nb year limit rand source) as (out & E & _).
    exists out. exact E.
Qed.

End Engine.

(** The query on the three sample rows: the row without fare is dropped by
    the filter, the two others are labelled 1 and 0. *)
Example prepare_sample_source :
  match
    prepare_query (H := sample_engine) DatasetManagement 2020 10
      (fun _ => 1 # 2) sample_source
  with
  | Ok out =>
      map p_tip_bin out = [1; 0]
      /\ map p_split out = [UNASSIGNED; UNASSIGNED]
      /\ map p_trip_miles out = [Some 2%Q; Some 3%Q]
  | Err _ => False
  end.
Proof. vm_compute. auto. Qed.

(** Without the filter the labelling of the row without fare would abort
    the query. *)
Example select_list_without_fare :
  select_list (H := sample_engine) DatasetManagement (1 # 2)
    (sample_trip 1 0 0)
  = Err DivisionByZero.
Proof. reflexivity. Qed.

(** *** The split column *)

Lemma split_column_values (nb : notebook) (r : Q) :
  split_column nb r = UNASSIGNED \/ split_column nb r = TEST.
Proof.
  destruct nb; simpl; unfold data_split, ML_use, IF; simpl.
  - destruct (negb (Qle_bool r (8 # 10))); auto.
  - destruct (Qle_bool r (8 # 10)); auto.
Qed.

Lemma count_above (T m : nat) :
  length (List.filter (fun k => T <? k)%nat (seq 0 m)) = (m - S T)%nat.
Proof.
  induction m as [|m IH]; [reflexivity|].
  rewrite seq_S, List.filter_app, List.length_app, IH. simpl.
  destruct (Nat.ltb_spec T m); simpl; lia.
Qed.

Lemma count_upto (T m : nat) :
  length (List.filter (fun k => k <=? T)%nat (seq 0 m)) = Nat.min m (S T).
Proof.
  induction m as [|m IH]; [reflexivity|].
  rewrite seq_S, List.filter_app, List.length_app, IH. simpl.
  destruct (Nat.leb_spec m T); simpl; lia.
Qed.

(** On the grid of [n] points a draw [k/n] is at most 0.8 exactly when
    [k <= 8n/10]. *)
Lemma draw_le_eight_tenths (n k : nat) :
  n <> 0%nat ->
  Qle_bool (Z.of_nat k # Pos.of_nat n) (8 # 10) = (k <=? 8 * n / 10)%nat.
Proof.
  intros Hn. unfold Qle_bool. simpl Qnum. simpl Qden.
  assert (E : Z.pos (Pos.of_nat n) = Z.of_nat n).
  { rewrite <- positive_nat_Z, Nat2Pos.id by exact Hn. reflexivity. }
  rewrite E.
  pose proof (Nat.div_mod_eq (8 * n) 10) as D.
  pose proof (Nat.mod_upper_bound (8 * n) 10 ltac:(lia)) as U.
  destruct (Nat.leb_spec k (8 * n / 10)).
  - apply Z.leb_le. lia.
  - apply Z.leb_gt. lia.
Qed.

Lemma unassigned_count_data_split (n : nat) :
  unassigned_count data_split n = (n - S (8 * n / 10))%nat.
Proof.
  destruct n as [|n]; [reflexivity|].
  unfold unassigned_count. rewrite <- count_above. f_equal.
  apply List.filter_ext. intros k.
  unfold data_split, IF, gt. simpl holds.
  rewrite draw_le_eight_tenths by lia.
  destruct (Nat.leb_spec k (8 * S n / 10)), (Nat.ltb_spec (8 * S n / 10) k);
    simpl; try reflexivity; lia.
Qed.

Lemma unassigned_count_ML_use (n : nat) :
  unassigned_count ML_use n = Nat.min n (S (8 * n / 10)).
Proof.
  destruct n as [|n]; [reflexivity|].
  unfold unassigned_count. rewrite <- count_upto. f_equal.
  apply List.filter_ext. intros k.
  unfold ML_use, IF, le. simpl holds.
  rewrite draw_le_eight_tenths by lia.
  destruct (Nat.leb_spec k (8 * S n / 10)); reflexivity.
Qed.

(** In the dataset management notebook the draws marked [UNASSIGNED] are
    four fifths of the grid, up to one point. *)
Lemma ML_use_marks_four_fifths (n : nat) :
  (4 * n <= 5 * unassigned_count ML_use n <= 4 * n + 5)%nat.
Proof.
  rewrite unassigned_count_ML_use.
  pose proof (Nat.div_mod_eq (8 * n) 10) as D.
  pose proof (Nat.mod_upper_bound (8 * n) 10 ltac:(lia)) as U.
  lia.
Qed.

(** The draws each notebook marks [UNASSIGNED]. *)
Lemma data_split_unassigned (r : Q) :
  data_split r = UNASSIGNED <-> (8 # 10 < r)%Q.
Proof.
  unfold data_split, IF, gt. simpl holds.
  destruct (Qle_bool r (8 # 10)) eqn:E; simpl.
  - apply Qle_bool_iff in E. split; [discriminate|].
    intros L. exfalso. exact (Qlt_not_le _ _ L E).
  - split; [|reflexivity]. intros _. apply Qnot_le_lt. intros L.
    apply Qle_bool_iff in L. congruence.
Qed.

Lemma ML_use_unassigned (r : Q) :
  ML_use r = UNASSIGNED <-> (r <= 8 # 10)%Q.
Proof.
  unfold ML_use, IF, le. simpl holds.
  destruct (Qle_bool r (8 # 10)) eqn:E; simpl.
  - apply Qle_bool_iff in E. tauto.
  - split; [discriminate|]. intros L. apply Qle_bool_iff in L. congruence.
Qed.

(** C1: the data analysis notebook marks [UNASSIGNED] the draws above 0.8
    and no others, so the draw 0.5 is marked [TEST] there, where the dataset
    management notebook marks it [UNASSIGNED]; on every grid of equally
    spaced draws at most a fifth is marked [UNASSIGNED], whereas at least
    four fifths are in the dataset management notebook. *)
Theorem data_split_marks_a_fifth (n : nat) :
  (forall r, data_split r = UNASSIGNED <-> (8 # 10 < r)%Q)
  /\ data_split (1 # 2) = TEST
  /\ ML_use (1 # 2) = UNASSIGNED
  /\ (5 * unassigned_count data_split n <= n)%nat
  /\ (4 * n <= 5 * unassigned_count ML_use n)%nat.
Proof.
  split; [exact data_split_unassigned|].
  split; [reflexivity|]. split; [reflexivity|]. split.
  - rewrite unassigned_count_data_split.
    pose proof (Nat.div_mod_eq (8 * n) 10) as D.
    pose proof (Nat.mod_upper_bound (8 * n) 10 ltac:(lia)) as U.
    lia.
  - apply ML_use_marks_four_fifths.
Qed.

(** A thousand draws: 199 are marked [UNASSIGNED] by one notebook, 801 by
    the other. *)
Example unassigned_of_a_thousand :
  unassigned_count data_split 1000 = 199%nat
  /\ unassigned_count ML_use 1000 = 801%nat.
Proof. vm_compute. auto. Qed.

End DataPrepFacts.

(** ** The destination table *)

Module WarehouseFacts.
Import Sql DataPrep Warehouse DataPrepFacts.

Section Tables.

Context `{SqlEngine}.

(** C8: a run of the script leaves in the destination table exactly the
    rows of its own query, whatever the table held before, and no other
    table changes. *)
Theorem run_script_replaces_table (nb : notebook) (dest : string) (year : Z)
    (limit : nat) (rand : nat -> Q) (source : list taxi_trip)
    (tables : gmap string (list prepared)) :
  exists rows tables',
    prepare_query nb year limit rand source = Ok rows
    /\ run_script nb dest year limit rand source tables = Ok tables'
    /\ tables' !! dest = Some rows
    /\ forall other, other <> dest -> tables' !! other = tables !! other.
Proof.
  destruct (prepare_query_total nb year limit rand source) as (rows & E & _).
  exists rows, (create_or_replace_table dest rows tables).
  unfold run_script, create_or_replace_table. rewrite E. simpl.
  split; [reflexivity|]. split; [reflexivity|]. split.
  - apply lookup_insert_eq.
  - intros other Hne. apply lookup_insert_ne. congruence.
Qed.

(** A second run forgets the rows of the first. *)
Lemma run_script_twice (nb : notebook) (dest : string) (year year' : Z)
    (limit limit' : nat) (rand rand' : nat -> Q)
    (source source' : list taxi_trip)
    (tables tables1 tables2 : gmap string (list prepared)) :
  run_script nb dest year limit rand source tables = Ok tables1 ->
  run_script nb dest year' limit' rand' source' tables1 = Ok tables2 ->
  Ok (tables2 !!! dest) = prepare_query nb year' limit' rand' source'.
Proof.
  intros _ E2. unfold run_script in E2.
  destruct (prepare_query nb year' limit' rand' source') as [rows|e];
    simpl in E2; [|discriminate E2].
  injection E2 as <-. unfold create_or_replace_table.
  rewrite lookup_total_insert_eq. reflexivity.
Qed.

End Tables.

End WarehouseFacts.

(** ** Placeholder substitution *)

Module TemplateFacts.
Import DataPrep Template.

Lemma prefix_append (a rest : string) : starts_with a (a +:+ rest) = true.
Proof.
  induction a as [|c a IH]; [reflexivity|].
  change (String c a +:+ rest) with (String c (a +:+ rest)).
  cbn [starts_with]. rewrite Ascii.eqb_refl. exact IH.
Qed.

Lemma prefix_not_at (k : string) (c : ascii) (s : string) :
  placeholder_ok k = true -> is_at c = false ->
  starts_with k (String c s) = false.
Proof.
  destruct k as [|d k]; simpl; [discriminate|].
  intros Hk Hc. apply andb_prop in Hk. destruct Hk as [Hd _].
  destruct (Ascii.eqb_spec d c) as [->|_]; [congruence | reflexivity].
Qed.

Lemma diverge_prefix (a b rest : string) :
  diverge a b = true -> starts_with a (b +:+ rest) = false.
Proof.
  revert b. induction a as [|x a IH]; intros [|y b]; simpl; try discriminate.
  change (String y b +:+ rest) with (String y (b +:+ rest)).
  cbn [starts_with].
  destruct (Ascii.eqb x y); [apply IH | reflexivity].
Qed.

Section Bindings.

Variable bs : list (string * string).
Variable keys : list string.
Hypothesis keys_cover : incl (map fst bs) keys.
Hypothesis keys_ok : forallb placeholder_ok keys = true.

Lemma key_ok (k : string) : In k keys -> placeholder_ok k = true.
Proof.
  intros Hk. rewrite forallb_forall in keys_ok. apply keys_ok. exact Hk.
Qed.

Lemma find_placeholder_not_at (c : ascii) (s : string) :
  is_at c = false -> find_placeholder bs (String c s) = None.
Proof.
  intros Hc. revert keys_cover.
  induction bs as [|[old new] bs' IH]; intros Hin; [reflexivity|].
  cbn [find_placeholder].
  rewrite prefix_not_at;
    [| apply key_ok, Hin; left; reflexivity | exact Hc].
  apply IH. intros k Hk. apply Hin. right. exact Hk.
Qed.

Lemma substitute_from_skip (a rest : string) :
  substitute_from bs (String.length a) (a +:+ rest) = substitute_from bs 0 rest.
Proof. induction a as [|c a IH]; simpl; [reflexivity | exact IH]. Qed.

Lemma substitute_from_literal (a rest : string) :
  no_at a = true ->
  substitute_from bs 0 (a +:+ rest) = a +:+ substitute_from bs 0 rest.
Proof.
  induction a as [|c a IH]; intros Ha; [reflexivity|].
  simpl in Ha. apply andb_prop in Ha. destruct Ha as [Hc Ha].
  apply negb_true_iff in Hc.
  change (String c a +:+ rest) with (String c (a +:+ rest)).
  cbn [substitute_from]. rewrite find_placeholder_not_at by exact Hc.
  rewrite IH by exact Ha. reflexivity.
Qed.

Lemma find_placeholder_hole (n rest : string) :
  forallb (fun k => String.eqb k n || diverge k n) keys = true ->
  find_placeholder bs (n +:+ rest)
  = match lookup_binding bs n with
    | Some v => Some (n, v)
    | None => None
    end.
Proof.
  intros Hn. rewrite forallb_forall in Hn. revert keys_cover.
  induction bs as [|[old new] bs' IH]; intros Hin; [reflexivity|].
  cbn [find_placeholder lookup_binding].
  destruct (String.eqb_spec old n) as [->|Hne].
  - rewrite prefix_append. reflexivity.
  - assert (D : diverge old n = true).
    { specialize (Hn old (Hin old (or_introl eq_refl))).
      apply orb_prop in Hn. destruct Hn as [E|D]; [|exact D].
      apply String.eqb_eq in E. contradiction. }
    rewrite (diverge_prefix old n rest D).
    apply IH. intros k Hk. apply Hin. right. exact Hk.
Qed.

Lemma substitute_from_hole (n rest : string) :
  hole_ok keys n = true ->
  substitute_from bs 0 (n +:+ rest)
  = match lookup_binding bs n with
    | Some v => v +:+ substitute_from bs 0 rest
    | None => n +:+ substitute_from bs 0 rest
    end.
Proof.
  unfold hole_ok. intros Hn. apply andb_prop in Hn. destruct Hn as [Hp Hd].
  destruct n as [|c n]; [discriminate Hp|].
  simpl in Hp. apply andb_prop in Hp. destruct Hp as [_ Hn].
  pose proof (find_placeholder_hole (String c n) rest Hd) as F.
  change (String c n +:+ rest) with (String c (n +:+ rest)) in *.
  cbn [substitute_from]. rewrite F.
  destruct (lookup_binding bs (String c n)) as [v|].
  - cbn [String.length]. rewrite Nat.sub_1_r. cbn [Nat.pred].
    rewrite substitute_from_skip. reflexivity.
  - rewrite substitute_from_literal by exact Hn. reflexivity.
Qed.

(** Substituting in a rendered template fills its holes. *)
Lemma substitute_from_render (toks : list token) :
  tokens_ok keys toks = true ->
  substitute_from bs 0 (render toks) = render (fill_all bs toks).
Proof.
  induction toks as [|[s|n] toks IH]; intros Hok; [reflexivity| |];
    simpl in Hok; apply andb_prop in Hok; destruct Hok as [H1 H2];
    cbn [render fill_all].
  - rewrite substitute_from_literal by exact H1.
    rewrite IH by exact H2. reflexivity.
  - rewrite substitute_from_hole by exact H1.
    destruct (lookup_binding bs n); cbn [render];
      rewrite IH by exact H2; reflexivity.
Qed.

Lemma fill_all_ok (toks : list token) :
  Forall (fun b => no_at (snd b) = true) bs ->
  tokens_ok keys toks = true -> tokens_ok keys (fill_all bs toks) = true.
Proof.
  intros Hv. induction toks as [|[s|n] toks IH]; intros Hok; [reflexivity| |];
    simpl in Hok; apply andb_prop in Hok; destruct Hok as [H1 H2];
    cbn [fill_all].
  - simpl. rewrite H1. apply IH. exact H2.
  - destruct (lookup_binding bs n) as [v|] eqn:L; simpl.
    + assert (Nv : no_at v = true).
      { clear -Hv L. induction Hv as [|[old new] bs' Hb _ IHb];
          [discriminate L|].
        simpl in L. destruct (String.eqb old n).
        - injection L as <-. exact Hb.
        - apply IHb. exact L. }
      rewrite Nv. apply IH. exact H2.
    + rewrite H1. apply IH. exact H2.
Qed.

End Bindings.

Lemma replace_from_single (old new : string) (k : nat) (s : string) :
  replace_from old new k s = substitute_from [(old, new)] k s.
Proof.
  revert k. induction s as [|c s IH]; intros k; [reflexivity|].
  cbn [replace_from substitute_from find_placeholder].
  destruct k as [|k]; [|apply IH].
  destruct (starts_with old (String c s)); rewrite IH; reflexivity.
Qed.

(** One [replace] of the chain, on a rendered template. *)
Lemma replace_render (keys : list string) (old new : string)
    (toks : list token) :
  In old keys -> forallb placeholder_ok keys = true ->
  tokens_ok keys toks = true ->
  replace old new (render toks) = render (fill_all [(old, new)] toks).
Proof.
  intros Hin Hkeys Hok.
  assert (Hold : placeholder_ok old = true).
  { rewrite forallb_forall in Hkeys. apply Hkeys. exact Hin. }
  destruct old as [|c old]; [discriminate Hold|].
  unfold replace. rewrite replace_from_single.
  apply substitute_from_render with (keys := keys).
  - intros k [<-|[]]. exact Hin.
  - exact Hkeys.
  - exact Hok.
Qed.

Lemma string_of_uint_no_at (d : Decimal.uint) :
  no_at (NilEmpty.string_of_uint d) = true.
Proof. induction d; simpl; auto. Qed.

Lemma str_no_at (n : Z) : no_at (str n) = true.
Proof.
  unfold str, NilZero.string_of_int.
  destruct (Z.to_int n) as [d|d]; unfold NilZero.string_of_uint.
  - destruct d; try reflexivity; apply string_of_uint_no_at.
  - destruct d; try reflexivity; simpl; apply string_of_uint_no_at.
Qed.

(** Both scripts are 1854 characters long. *)
Example sql_script_length (nb : notebook) :
  String.length (sql_script nb) = 1854%nat.
Proof. destruct nb; vm_compute; reflexivity. Qed.

(** The holes of the script, in order. *)
Example sql_script_holes :
  omap (fun tok => match tok with Hole n => Some n | Lit _ => None end)
    (tokenize (sql_script DatasetManagement))
  = ["@PROJECT_ID"; "@DATASET"; "@TABLE"; "@YEAR"; "@LIMIT"]%string.
Proof. vm_compute. reflexivity. Qed.

Lemma sql_script_tokens (nb : notebook) :
  render (tokenize (sql_script nb)) = sql_script nb.
Proof. destruct nb; vm_compute; reflexivity. Qed.

Lemma sql_script_tokens_ok (nb : notebook) :
  tokens_ok (placeholders nb) (tokenize (sql_script nb)) = true.
Proof. destruct nb; vm_compute; reflexivity. Qed.

Lemma placeholders_ok (nb : notebook) :
  forallb placeholder_ok (placeholders nb) = true.
Proof. destruct nb; reflexivity. Qed.

Ltac placeholder_listed := unfold placeholders; simpl; tauto.

Ltac values_ok := repeat constructor; simpl; assumption.

(** C5: when none of the project, dataset and table values contains the
    character ['@'], the chain of [replace] calls yields the script with
    every placeholder replaced by its value in one pass and every other
    character kept, for both notebooks and every year and sample size. *)
Theorem substitute_is_simultaneous (nb : notebook)
    (PROJECT BQ_DATASET_NAME BQ_TABLE_NAME : string) (year sample_size : Z) :
  no_at PROJECT = true ->
  no_at BQ_DATASET_NAME = true ->
  no_at BQ_TABLE_NAME = true ->
  substitute nb PROJECT BQ_DATASET_NAME BQ_TABLE_NAME year sample_size
  = substitute_simultaneously
      (bindings nb PROJECT BQ_DATASET_NAME BQ_TABLE_NAME year sample_size)
      (sql_script nb).
Proof.
  intros HP HD HT.
  pose proof (str_no_at year) as HY.
  pose proof (str_no_at sample_size) as HL.
  unfold substitute, substitute_simultaneously, bindings.
  generalize dependent (str year). intros Y HY.
  generalize dependent (str sample_size). intros L HL.
  pose proof (placeholders_ok nb) as Hkeys.
  pose proof (sql_script_tokens_ok nb) as Hok.
  rewrite <- (sql_script_tokens nb).
  set (toks := tokenize (sql_script nb)) in *.
  set (keys := placeholders nb) in *.
  assert (H1 : tokens_ok keys (fill_all [(project_placeholder nb, PROJECT)] toks)
               = true).
  { apply fill_all_ok; [values_ok | exact Hok]. }
  assert (H2 : tokens_ok keys
                 (fill_all [("@DATASET"%string, BQ_DATASET_NAME)]
                    (fill_all [(project_placeholder nb, PROJECT)] toks))
               = true).
  { apply fill_all_ok; [values_ok | exact H1]. }
  assert (H3 : tokens_ok keys
                 (fill_all [("@TABLE"%string, BQ_TABLE_NAME)]
                    (fill_all [("@DATASET"%string, BQ_DATASET_NAME)]
                       (fill_all [(project_placeholder nb, PROJECT)] toks)))
               = true).
  { apply fill_all_ok; [values_ok | exact H2]. }
  assert (H4 : tokens_ok keys
                 (fill_all [("@YEAR"%string, Y)]
                    (fill_all [("@TABLE"%string, BQ_TABLE_NAME)]
                       (fill_all [("@DATASET"%string, BQ_DATASET_NAME)]
                          (fill_all [(project_placeholder nb, PROJECT)] toks))))
               = true).
  { apply fill_all_ok; [values_ok | exact H3]. }
  rewrite (replace_render keys (project_placeholder nb) PROJECT toks);
    [| subst keys; placeholder_listed | exact Hkeys | exact Hok].
  rewrite (replace_render keys "@DATASET" BQ_DATASET_NAME);
    [| subst keys; placeholder_listed | exact Hkeys | exact H1].
  rewrite (replace_render keys "@TABLE" BQ_TABLE_NAME);
    [| subst keys; placeholder_listed | exact Hkeys | exact H2].
  rewrite (replace_render keys "@YEAR" Y);
    [| subst keys; placeholder_listed | exact Hkeys | exact H3].
  rewrite (replace_render keys "@LIMIT" L);
    [| subst keys; placeholder_listed | exact Hkeys | exact H4].
  rewrite (substitute_from_render _ keys);
    [| subst keys; intros k Hk; exact Hk | exact Hkeys | exact Hok].
  f_equal. subst toks. clear. destruct nb; vm_compute; reflexivity.
Qed.

Lemma substitute_is_simultaneous_witness :
  substitute DatasetManagement "my-project" "playground_us"
    "chicago_taxitrips_prep" 2020 1000000
  = substitute_simultaneously
      (bindings DatasetManagement "my-project" "playground_us"
         "chicago_taxitrips_prep" 2020 1000000)
      (sql_script DatasetManagement).
Proof.
  apply (substitute_is_simultaneous DatasetManagement "my-project"
           "playground_us" "chicago_taxitrips_prep" 2020 1000000);
    reflexivity.
Defined.

(** A project value that spells a later placeholder is itself rewritten by
    the chain, but not by the one-pass substitution. *)
Lemma substitute_rewrites_values :
  ~ (forall (nb : notebook) (PROJECT BQ_DATASET_NAME BQ_TABLE_NAME : string)
       (year sample_size : Z),
       substitute nb PROJECT BQ_DATASET_NAME BQ_TABLE_NAME year sample_size
       = substitute_simultaneously
           (bindings nb PROJECT BQ_DATASET_NAME BQ_TABLE_NAME year
              sample_size)
           (sql_script nb)).
Proof.
  intros C.
  specialize (C DataAnalysis "@TABLE" "playground_us"
                "chicago_taxitrips_prep" 2020 1000000)%string.
  apply String.eqb_eq in C. vm_compute in C. discriminate C.
Qed.

End TemplateFacts.

(** ** The polling loop *)

Module PollingFacts.
Import Py Polling.

Lemma terminal_dec (name : string) :
  terminal name
  \/ ((name =? "JOB_STATE_SUCCEEDED")%string = false
      /\ (name =? "JOB_STATE_FAILED")%string = false).
Proof.
  unfold terminal.
  destruct (String.eqb_spec name "JOB_STATE_SUCCEEDED") as [E|_]; [auto|].
  destruct (String.eqb_spec name "JOB_STATE_FAILED") as [E|_]; auto.
Qed.

Lemma not_terminal_eqb (name : string) :
  ~ terminal name ->
  (name =? "JOB_STATE_SUCCEEDED")%string = false
  /\ (name =? "JOB_STATE_FAILED")%string = false.
Proof.
  intros N. destruct (terminal_dec name) as [T|E]; [contradiction | exact E].
Qed.

(** The body stops the loop exactly in the two states it names. *)
Lemma loop_body_break (response : CustomJob) (w : world) :
  fst (loop_body response w) = Break <-> terminal (state_name response).
Proof.
  unfold loop_body, terminal.
  destruct (String.eqb_spec (state_name response) "JOB_STATE_SUCCEEDED")
    as [E|N1]; simpl; [tauto|].
  destruct (String.eqb_spec (state_name response) "JOB_STATE_FAILED")
    as [E|N2]; simpl; [tauto|].
  split; [discriminate | tauto].
Qed.

(** In every other state it prints the state, sleeps 60 seconds and goes
    round again. *)
Lemma loop_body_continue (response : CustomJob) (w : world) :
  ~ terminal (state_name response) ->
  loop_body response w
  = (Continue,
     sleep 60
       (print [PStr ("Training job state is: " +:+ state_name response
                     +:+ ".")] w)).
Proof.
  intros N. apply not_terminal_eqb in N. destruct N as [N1 N2].
  unfold loop_body. rewrite N1, N2. reflexivity.
Qed.

Lemma loop_body_polls (response : CustomJob) (w : world) :
  polls (snd (loop_body response w)) = polls w.
Proof.
  unfold loop_body.
  destruct (_ =? "JOB_STATE_SUCCEEDED")%string; [reflexivity|].
  destruct (_ =? "JOB_STATE_FAILED")%string; reflexivity.
Qed.

Lemma loop_body_break_slept (response : CustomJob) (w : world) :
  fst (loop_body response w) = Break ->
  slept (snd (loop_body response w)) = slept w.
Proof.
  unfold loop_body.
  destruct (_ =? "JOB_STATE_SUCCEEDED")%string; [reflexivity|].
  destruct (_ =? "JOB_STATE_FAILED")%string; [reflexivity | discriminate].
Qed.

(** After [n] calls answered with a state to go on with, the loop is where
    it started, [n] calls and [60 n] seconds later. *)
Lemma monitor_job_state_goes_on (get_custom_job : nat -> call CustomJob)
    (n : nat) :
  forall (fuel : nat) (w : world),
    (forall i, (i < n)%nat -> goes_on_at get_custom_job (polls w + i)) ->
    exists w',
      monitor_job_state (n + fuel) get_custom_job w
      = monitor_job_state fuel get_custom_job w'
      /\ polls w' = (polls w + n)%nat
      /\ slept w' = slept w + 60 * Z.of_nat n.
Proof.
  induction n as [|n IH]; intros fuel w Hgo.
  - exists w. simpl. split; [reflexivity|]. split; lia.
  - destruct (Hgo 0%nat ltac:(lia)) as (response & E & N).
    rewrite Nat.add_0_r in E.
    cbn [Nat.add monitor_job_state]. rewrite E.
    rewrite (loop_body_continue response (polled w) N).
    set (w1 := sleep 60 _).
    destruct (IH fuel w1) as (w' & Erun & Ep & Es).
    { intros i Hi. replace (polls w1 + i)%nat with (polls w + S i)%nat
        by (subst w1; simpl; lia).
      apply Hgo. lia. }
    exists w'. split; [exact Erun|].
    subst w1. simpl in Ep, Es. split; lia.
Qed.

(** The loop ends in the pass of the first call answered with a terminal
    state, having slept 60 seconds for each call before it. *)
Lemma monitor_job_state_stops (get_custom_job : nat -> call CustomJob)
    (n fuel : nat) :
  (forall i, (i < n)%nat -> goes_on_at get_custom_job i) ->
  stops_at get_custom_job n ->
  (n < fuel)%nat ->
  fst (monitor_job_state fuel get_custom_job start) = Finished
  /\ polls (snd (monitor_job_state fuel get_custom_job start)) = S n
  /\ slept (snd (monitor_job_state fuel get_custom_job start))
     = 60 * Z.of_nat n.
Proof.
  intros Hgo (response & E & T) Hfuel.
  destruct (monitor_job_state_goes_on get_custom_job n (fuel - n) start)
    as (w & Erun & Ep & Es); [exact Hgo|].
  replace (n + (fuel - n))%nat with fuel in Erun by lia.
  rewrite Erun. simpl in Ep, Es.
  destruct (fuel - n)%nat as [|fuel'] eqn:F; [lia|].
  cbn [monitor_job_state]. rewrite Ep, E.
  pose proof (proj2 (loop_body_break response (polled w)) T) as B.
  pose proof (loop_body_polls response (polled w)) as P.
  pose proof (loop_body_break_slept response (polled w) B) as Z.
  destruct (loop_body response (polled w)) as [c w'].
  simpl in B, P, Z. subst c. simpl.
  split; [reflexivity|]. split; [rewrite P, Ep | rewrite Z, Es]; lia.
Qed.

(** A loop that has ended normally has seen a terminal state in its last
    call, and none before. *)
Lemma monitor_job_state_finished (get_custom_job : nat -> call CustomJob)
    (fuel : nat) :
  forall w,
    fst (monitor_job_state fuel get_custom_job w) = Finished ->
    exists n,
      (n < fuel)%nat
      /\ polls (snd (monitor_job_state fuel get_custom_job w))
         = (polls w + S n)%nat
      /\ stops_at get_custom_job (polls w + n)
      /\ forall i, (i < n)%nat -> goes_on_at get_custom_job (polls w + i).
Proof.
  induction fuel as [|fuel IH]; intros w; [discriminate|].
  cbn [monitor_job_state].
  destruct (get_custom_job (polls w)) as [response|e] eqn:E; [|discriminate].
  pose proof (loop_body_break response (polled w)) as B.
  pose proof (loop_body_polls response (polled w)) as P.
  destruct (loop_body response (polled w)) as [[|] w'] eqn:L;
    simpl in B, P.
  - intros _. exists 0%nat. simpl.
    split; [lia|]. split; [lia|]. split.
    + exists response. rewrite Nat.add_0_r. split; [exact E | tauto].
    + intros i Hi. lia.
  - intros Hfin. destruct (IH w' Hfin) as (n & Hn & Hp & Hs & Hg).
    exists (S n). rewrite P in *. split; [lia|].
    split; [rewrite Hp; lia|]. split.
    + replace (polls w + S n)%nat with (S (polls w) + n)%nat by lia.
      exact Hs.
    + intros [|i] Hi.
      * exists response. rewrite Nat.add_0_r. split; [exact E|].
        intros T. apply B in T. discriminate T.
      * replace (polls w + S i)%nat with (S (polls w) + i)%nat by lia.
        apply Hg. lia.
Qed.



(** C7: a pass of the loop ends it exactly when the state it was given is
    [JOB_STATE_SUCCEEDED] or [JOB_STATE_FAILED], and in any other state it
    sleeps 60 seconds and goes on; so the loop ends in its [n+1]-st pass
    exactly when the [n+1]-st answer is the first with such a state, after
    [60 n] seconds of sleep. *)
Theorem polling_stops_at_terminal_state
    (get_custom_job : nat -> call CustomJob) (fuel n : nat) :
  (forall response w,
     (fst (loop_body response w) = Break <-> terminal (state_name response))
     /\ (~ terminal (state_name response) ->
         fst (loop_body response w) = Continue
         /\ polls (snd (loop_body response w)) = polls w
         /\ slept (snd (loop_body response w)) = slept w + 60))
  /\ ((fst (monitor_job_state fuel get_custom_job start) = Finished
       /\ polls (snd (monitor_job_state fuel get_custom_job start)) = S n)
      <-> ((n < fuel)%nat
           /\ stops_at get_custom_job n
           /\ forall i, (i < n)%nat -> goes_on_at get_custom_job i))
  /\ (fst (monitor_job_state fuel get_custom_job start) = Finished ->
      polls (snd (monitor_job_state fuel get_custom_job start)) = S n ->
      slept (snd (monitor_job_state fuel get_custom_job start))
      = 60 * Z.of_nat n).
Proof.
  assert (Back :
    fst (monitor_job_state fuel get_custom_job start) = Finished ->
    polls (snd (monitor_job_state fuel get_custom_job start)) = S n ->
    (n < fuel)%nat /\ stops_at get_custom_job n
    /\ forall i, (i < n)%nat -> goes_on_at get_custom_job i).
  { intros Hfin Hp.
    destruct (monitor_job_state_finished get_custom_job fuel start Hfin)
      as (m & Hm & Hpm & Hs & Hg).
    simpl in Hpm, Hs, Hg. rewrite Hp in Hpm. injection Hpm as ->.
    auto. }
  split; [|split].
  - intros response w. split; [apply loop_body_break|].
    intros N. rewrite (loop_body_continue response w N). simpl. auto.
  - split.
    + intros [Hfin Hp]. exact (Back Hfin Hp).
    + intros (Hn & Hs & Hg).
      destruct (monitor_job_state_stops get_custom_job n fuel Hg Hs Hn)
        as (A & B & _).
      auto.
  - intros Hfin Hp. destruct (Back Hfin Hp) as (Hn & Hs & Hg).
    apply (monitor_job_state_stops get_custom_job n fuel Hg Hs Hn).
Qed.

(** A job that is running for the first two calls and has succeeded at the
    third: the loop ends in its third pass, after two minutes of sleep. *)
Example polling_three_passes :
  let get_custom_job i :=
    if (i <? 2)%nat then Returned (job_in_state "JOB_STATE_RUNNING")
    else Returned (job_in_state "JOB_STATE_SUCCEEDED") in
  fst (monitor_job_state 5 get_custom_job start) = Finished
  /\ polls (snd (monitor_job_state 5 get_custom_job start)) = 3%nat
  /\ slept (snd (monitor_job_state 5 get_custom_job start)) = 120.
Proof. vm_compute. auto. Qed.

(** A job that was cancelled is polled for as long as the loop is run. *)
Example polling_cancelled_job :
  fst (monitor_job_state 50
         (fun _ => Returned (job_in_state "JOB_STATE_CANCELLED")) start)
  = StillPolling.
Proof. vm_compute. reflexivity. Qed.

End PollingFacts.

(** ** The monitoring job *)

Module MonitoringFacts.
Import Py Monitoring.

Lemma fold_append_map {A B : Type} (f : A -> B) (l : list A) (acc : list B) :
  fold_left (fun configs x => configs ++ [f x]) l acc = acc ++ map f l.
Proof.
  revert acc. induction l as [|x l IH]; intros acc; simpl.
  - rewrite app_nil_r. reflexivity.
  - rewrite IH, <- app_assoc. reflexivity.
Qed.

(** The loop builds one objective per model id, in order. *)
Lemma deployment_objective_configs_map
    (template : ModelDeploymentMonitoringObjectiveConfig)
    (model_ids : list string) :
  deployment_objective_configs template model_ids
  = map (set_deployed_model_id template) model_ids.
Proof.
  exact (fold_append_map (set_deployed_model_id template) model_ids []).
Qed.

Lemma deployed_model_ids (template : ModelDeploymentMonitoringObjectiveConfig)
    (model_ids : list string) :
  map deployed_model_id (deployment_objective_configs template model_ids)
  = model_ids.
Proof.
  rewrite deployment_objective_configs_map, map_map. simpl. apply map_id.
Qed.


(** C9: the job names the one endpoint it was built for; its objectives
    are, in order, one per deployed model id, so they carry distinct ids
    when the deployed models do; and every objective has the objective
    configuration of the template, hence the same skew and drift
    thresholds. *)
Theorem monitoring_job_objectives (skew_table drift_table : gmap string pynum)
    (bq_source_uri endpoint_uri : string) (model_ids : list string) :
  List.NoDup model_ids ->
  let job :=
    monitoring_job skew_table drift_table bq_source_uri endpoint_uri model_ids
  in
  endpoint job = endpoint_uri
  /\ map deployed_model_id (model_deployment_monitoring_objective_configs job)
     = model_ids
  /\ length (model_deployment_monitoring_objective_configs job)
     = length model_ids
  /\ List.NoDup (map deployed_model_id
              (model_deployment_monitoring_objective_configs job))
  /\ Forall
       (fun c =>
          objective_config c
          = objective_config
              (objective_template skew_table drift_table bq_source_uri)
          /\ skew_of c = thresholds skew_table
          /\ drift_of c = thresholds drift_table)
       (model_deployment_monitoring_objective_configs job).
Proof.
  intros Hids job. subst job. unfold monitoring_job.
  cbn [endpoint model_deployment_monitoring_objective_configs].
  split; [reflexivity|]. split; [apply deployed_model_ids|]. split.
  - rewrite deployment_objective_configs_map. apply length_map.
  - split; [rewrite deployed_model_ids; exact Hids|].
    rewrite deployment_objective_configs_map.
    apply List.Forall_forall. intros c Hc.
    apply in_map_iff in Hc. destruct Hc as (model_id & <- & _).
    split; [reflexivity|]. split; reflexivity.
Qed.

Lemma monitoring_job_objectives_witness :
  List.NoDup ["41"; "42"]%string
  /\ map deployed_model_id
       (model_deployment_monitoring_objective_configs
          (monitoring_job SKEW_THRESHOLDS DIRFT_THRESHOLDS "bq://t" "endpoints/8"
             ["41"; "42"]%string))
     = ["41"; "42"]%string.
Proof.
  assert (D : List.NoDup ["41"; "42"]%string).
  { constructor; [simpl; intros [E|[]]; discriminate E|].
    constructor; [intros []|]. constructor. }
  split; [exact D|].
  exact (proj1 (proj2
    (monitoring_job_objectives SKEW_THRESHOLDS DIRFT_THRESHOLDS "bq://t"
       "endpoints/8" ["41"; "42"]%string D))).
Defined.

Lemma select_monitoring_job_only (jobs : list ModelDeploymentMonitoringJob)
    (r : ModelDeploymentMonitoringJob) :
  In r jobs ->
  display_name r = MONITORING_JOB_NAME ->
  (forall e, In e jobs -> display_name e = MONITORING_JOB_NAME -> e = r) ->
  select_monitoring_job jobs = Returned r.
Proof.
  intros Hin Hname Honly. unfold select_monitoring_job.
  set (same := fun entry => String.eqb (display_name entry) MONITORING_JOB_NAME).
  assert (Hr : In r (List.filter same jobs)).
  { apply filter_In. split; [exact Hin|]. apply String.eqb_eq. exact Hname. }
  destruct (List.filter same jobs) as [|entry rest] eqn:F; [destruct Hr|].
  assert (He : In entry (List.filter same jobs)) by (rewrite F; left; reflexivity).
  apply filter_In in He. destruct He as [He1 He2].
  apply String.eqb_eq in He2. rewrite (Honly entry He1 He2). reflexivity.
Qed.



End MonitoringFacts.

(** ** Failures in the cells *)

Module FailureFacts.
Import Py Polling Cells PollingFacts.














End FailureFacts.

(** ** More on the prepared table *)

Module DataPrepMore.
Import Sql DataPrep FollowUp DataPrepFacts.

Lemma Forall2_right {A B : Type} (R : A -> B -> Prop) (P : B -> Prop)
    (l : list A) (k : list B) :
  (forall a b, R a b -> P b) -> Forall2 R l k -> Forall P k.
Proof. intros I F. induction F; constructor; eauto. Qed.

Section Engine.

Context `{SqlEngine}.

(** X1: a table the query returns has as many rows as pass the filter,
    up to the limit: never more than [LIMIT] rows, never more than the
    source has, and never fewer than [LIMIT] when that many rows pass. *)
Theorem prepared_row_count (nb : notebook) (year : Z) (limit : nat)
    (rand : nat -> Q) (source : list taxi_trip) (out : list prepared) :
  prepare_query nb year limit rand source = Ok out ->
  length out = Nat.min limit (length (taxitrips year source))
  /\ (length out <= limit)%nat
  /\ (length out <= length source)%nat.
Proof.
  intros R.
  destruct (prepare_query_total nb year limit rand source) as (out' & E & F).
  rewrite E in R. injection R as ->.
  apply Forall2_length in F. rewrite List.length_firstn in F.
  assert (L : (length (taxitrips year source) <= length source)%nat)
    by apply List.filter_length_le.
  lia.
Qed.

Lemma where_clause_year (yr : Z) (t : taxi_trip) :
  holds (where_clause yr t) = true ->
  exists ts, trip_start_timestamp t = Some ts /\ EXTRACT YEAR ts = yr.
Proof.
  unfold where_clause. intros E. apply holds_and3 in E. destruct E as [_ E].
  destruct (trip_start_timestamp t) as [ts|]; simpl in E; [|discriminate E].
  exists ts. split; [reflexivity|].
  destruct (Z.eqb_spec (EXTRACT YEAR ts) yr); [assumption | discriminate E].
Qed.

Lemma taxitrips_year (yr : Z) (source : list taxi_trip) :
  Forall
    (fun t =>
       exists ts, trip_start_timestamp t = Some ts /\ EXTRACT YEAR ts = yr)
    (taxitrips yr source).
Proof.
  apply List.Forall_forall. intros t Ht.
  apply filter_In in Ht. destruct Ht as [_ Ht].
  exact (where_clause_year yr t Ht).
Qed.

Lemma selected_time_columns (nb : notebook) (t : taxi_trip) (p : prepared)
    (ts : Timestamp) :
  trip_start_timestamp t = Some ts -> selected_from nb t p ->
  p_trip_start_timestamp p = Some ts
  /\ p_trip_month p = Some (EXTRACT MONTH ts)
  /\ p_trip_day p = Some (EXTRACT DAY ts)
  /\ p_trip_day_of_week p = Some (EXTRACT DAYOFWEEK ts)
  /\ p_trip_hour p = Some (EXTRACT HOUR ts).
Proof.
  intros Ets [r Er]. unfold select_list in Er.
  destruct (tip_bin (tips t) (fare t)) as [b|e]; simpl in Er;
    [|discriminate Er].
  injection Er as <-. simpl. rewrite Ets. simpl. auto.
Qed.

(** X3: every row of the prepared table keeps a start timestamp, which lies
    in the requested year, and its month, day, day of week and hour are the
    parts of that timestamp. *)
Theorem prepared_rows_of_the_year (nb : notebook) (yr : Z) (limit : nat)
    (rand : nat -> Q) (source : list taxi_trip) :
  exists out,
    prepare_query nb yr limit rand source = Ok out
    /\ Forall
         (fun p =>
            exists ts,
              p_trip_start_timestamp p = Some ts
              /\ EXTRACT YEAR ts = yr
              /\ p_trip_month p = Some (EXTRACT MONTH ts)
              /\ p_trip_day p = Some (EXTRACT DAY ts)
              /\ p_trip_day_of_week p = Some (EXTRACT DAYOFWEEK ts)
              /\ p_trip_hour p = Some (EXTRACT HOUR ts))
         out.
Proof.
  destruct (prepare_query_total nb yr limit rand source) as (out & E & F).
  exists out. split; [exact E|].
  apply (Forall2_and_left _ _ _ _
           (Forall_firstn _ limit _ (taxitrips_year yr source))) in F.
  eapply Forall2_right; [|exact F].
  intros t p [(ts & Ets & Ey) S].
  exists ts. destruct (selected_time_columns nb t p ts Ets S) as (A & B).
  split; [exact A|]. split; [exact Ey | exact B].
Qed.

Lemma selected_features (nb : notebook) (t : taxi_trip) (p : prepared) :
  meets_filter t -> selected_from nb t p ->
  is_Some (p_trip_seconds p) /\ is_Some (p_trip_miles p)
  /\ is_Some (p_pickup_grid p) /\ is_Some (p_dropoff_grid p)
  /\ is_Some (p_euclidean p) /\ is_Some (p_loc_cross p)
  /\ p_loc_cross p = CONCAT (p_pickup_grid p) (p_dropoff_grid p).
Proof.
  intros ([a Ea] & [b Eb] & [c Ec] & [d Ed] & (m & Em & _) & (s & Es & _) & _)
    [r Er].
  unfold select_list in Er.
  destruct (tip_bin (tips t) (fare t)) as [l|e]; simpl in Er;
    [|discriminate Er].
  injection Er as <-. simpl. unfold grid.
  rewrite Ea, Eb, Ec, Ed, Em, Es. simpl.
  repeat split; eexists; reflexivity.
Qed.

(** X4: in every row of the prepared table the duration, the distance, the
    two grid cells, the distance between the two points and the crossed
    cell are known, and the crossed cell is the pickup cell followed by the
    dropoff cell. *)
Theorem prepared_features_known (nb : notebook) (yr : Z) (limit : nat)
    (rand : nat -> Q) (source : list taxi_trip) :
  exists out,
    prepare_query nb yr limit rand source = Ok out
    /\ Forall
         (fun p =>
            is_Some (p_trip_seconds p) /\ is_Some (p_trip_miles p)
            /\ is_Some (p_pickup_grid p) /\ is_Some (p_dropoff_grid p)
            /\ is_Some (p_euclidean p) /\ is_Some (p_loc_cross p)
            /\ p_loc_cross p = CONCAT (p_pickup_grid p) (p_dropoff_grid p))
         out.
Proof.
  destruct (prepare_query_total nb yr limit rand source) as (out & E & F).
  exists out. split; [exact E|].
  apply (Forall2_and_left _ _ _ _
           (Forall_firstn _ limit _ (taxitrips_meet yr source))) in F.
  eapply Forall2_right; [|exact F].
  intros t p [M S]. exact (selected_features nb t p M S).
Qed.

End Engine.

Lemma prepared_row_count_witness :
  exists out,
    prepare_query (H := sample_engine) DatasetManagement 2020 1
      (fun _ => 1 # 2) sample_source = Ok out
    /\ length out = 1%nat.
Proof.
  destruct (prepare_query (H := sample_engine) DatasetManagement 2020 1
              (fun _ => 1 # 2) sample_source) as [out|e] eqn:E;
    [|vm_compute in E; discriminate E].
  exists out. split; [reflexivity|].
  exact (proj1 (prepared_row_count (H := sample_engine) DatasetManagement 2020
                  1 (fun _ => 1 # 2) sample_source out E)).
Defined.

(** X5: on one and the same draw the two notebooks always decide
    differently: a row is [UNASSIGNED] for one exactly when it is [TEST] for
    the other. *)
Theorem notebooks_split_opposite (r : Q) :
  (data_split r = UNASSIGNED <-> ML_use r = TEST)
  /\ (data_split r = TEST <-> ML_use r = UNASSIGNED)
  /\ data_split r <> ML_use r.
Proof.
  unfold data_split, ML_use, IF, gt, le. simpl holds.
  destruct (Qle_bool r (8 # 10)); simpl;
    (split; [|split]); try tauto; try discriminate;
    split; discriminate.
Qed.

End DataPrepMore.

(** ** The count of rows per split *)

Module SplitCountFacts.
Import Sql DataPrep FollowUp DataPrepFacts.

Lemma count_group_keys (k k' : string) (groups : list (string * nat)) :
  In k' (map fst (count_group k groups)) <-> k' = k \/ In k' (map fst groups).
Proof.
  induction groups as [|[k0 n] rest IH]; simpl; [intuition congruence|].
  destruct (String.eqb_spec k0 k) as [->|N]; simpl; [intuition congruence|].
  rewrite IH. tauto.
Qed.

Lemma count_group_nodup (k : string) (groups : list (string * nat)) :
  List.NoDup (map fst groups) -> List.NoDup (map fst (count_group k groups)).
Proof.
  induction groups as [|[k0 n] rest IH]; simpl; intros D.
  - constructor; [intros []|constructor].
  - inversion D as [|? ? Hk0 Hrest]; subst.
    destruct (String.eqb_spec k0 k) as [->|N]; simpl.
    + constructor; assumption.
    + constructor; [|apply IH; exact Hrest].
      rewrite count_group_keys. intros [E|I]; [congruence | contradiction].
Qed.

Lemma count_group_sum (k : string) (groups : list (string * nat)) :
  list_sum (map snd (count_group k groups)) = S (list_sum (map snd groups)).
Proof.
  induction groups as [|[k0 n] rest IH]; simpl; [reflexivity|].
  destruct (String.eqb k0 k); simpl; [reflexivity|].
  rewrite IH. lia.
Qed.

Lemma count_group_positive (k : string) (groups : list (string * nat)) :
  Forall (fun g => (0 < snd g)%nat) groups ->
  Forall (fun g => (0 < snd g)%nat) (count_group k groups).
Proof.
  induction 1 as [|[k0 n] rest Hn Hrest IH]; simpl.
  - repeat constructor.
  - destruct (String.eqb k0 k); constructor; simpl in *; auto; lia.
Qed.

(** The count a list of groups holds for a key. *)
Lemma count_group_entry (k k' : string) (n : nat)
    (groups : list (string * nat)) :
  List.NoDup (map fst groups) ->
  In (k', n) (count_group k groups) ->
  (k' = k /\ (n = 1%nat /\ ~ In k (map fst groups)
              \/ exists m, n = S m /\ In (k, m) groups))
  \/ (k' <> k /\ In (k', n) groups).
Proof.
  induction groups as [|[k0 m] rest IH]; simpl; intros D I.
  - destruct I as [E|[]]. injection E as <- <-. left. split; [reflexivity|].
    left. tauto.
  - inversion D as [|? ? Hk0 Hrest]; subst.
    destruct (String.eqb_spec k0 k) as [->|N]; simpl in I.
    + destruct I as [E|I].
      * injection E as <- <-. left. split; [reflexivity|]. right.
        exists m. auto.
      * right. split; [|auto]. intros ->. apply Hk0.
        apply in_map_iff. exists (k, n). auto.
    + destruct I as [E|I].
      * injection E as <- <-. right. auto.
      * destruct (IH Hrest I) as [[-> [[-> Hn]|(m' & -> & Hm)]]|[Hne Hin]].
        -- left. split; [reflexivity|]. left. split; [reflexivity|].
           intros [E|E]; [congruence | contradiction].
        -- left. split; [reflexivity|]. right. exists m'. auto.
        -- right. auto.
Qed.

Lemma group_by_count_from (keys : list string) :
  forall groups,
    List.NoDup (map fst groups) ->
    Forall (fun g => (0 < snd g)%nat) groups ->
    let result := fold_left (fun gs k => count_group k gs) keys groups in
    List.NoDup (map fst result)
    /\ Forall (fun g => (0 < snd g)%nat) result
    /\ list_sum (map snd result)
       = (list_sum (map snd groups) + length keys)%nat
    /\ (forall k, In k (map fst result) <-> In k keys \/ In k (map fst groups))
    /\ (forall k n,
          In (k, n) result ->
          (In (k, (n - count_occ string_dec keys k)%nat) groups
           /\ (count_occ string_dec keys k < n)%nat)
          \/ (~ In k (map fst groups) /\ n = count_occ string_dec keys k)).
Proof.
  induction keys as [|k keys IH]; intros groups D P; simpl.
  - split; [exact D|]. split; [exact P|]. split; [lia|]. split; [tauto|].
    intros k n I. left. rewrite Nat.sub_0_r. split; [exact I|].
    rewrite List.Forall_forall in P. exact (P (k, n) I).
  - destruct (IH (count_group k groups) (count_group_nodup k groups D)
                (count_group_positive k groups P)) as (A & B & C & K & E).
    split; [exact A|]. split; [exact B|]. split.
    { rewrite C, count_group_sum. lia. }
    split.
    { intros k'. rewrite K, count_group_keys. intuition. }
    intros k' n I. specialize (E k' n I).
    destruct (string_dec k k') as [->|Hne]; cbv iota.
    + destruct E as [[I' L]|[N ->]].
      * destruct (count_group_entry k' k' _ groups D I')
          as [[_ [[E1 Hn]|(m & Em & Hm)]]|[Hc _]]; [| |congruence].
        -- right. split; [exact Hn|]. revert L E1.
           generalize (count_occ string_dec keys k'). intros c L E1. lia.
        -- assert (Pm : (0 < m)%nat).
           { rewrite List.Forall_forall in P. exact (P (k', m) Hm). }
           revert L Em. generalize (count_occ string_dec keys k').
           intros c L Em. left. split; [|lia].
           replace (n - S c)%nat with m by lia. exact Hm.
      * exfalso. apply N. apply count_group_keys. auto.
    + destruct E as [[I' L]|[N ->]].
      * destruct (count_group_entry k k' _ groups D I')
          as [[-> _]|[_ Hin]]; [congruence|].
        left. auto.
      * right. split; [|reflexivity]. intros Hin. apply N.
        apply count_group_keys. auto.
Qed.

(** [GROUP BY] with [COUNT]: one group per key that occurs, holding the
    number of its occurrences. *)
Lemma group_by_count_spec (keys : list string) :
  List.NoDup (map fst (group_by_count keys))
  /\ list_sum (map snd (group_by_count keys)) = length keys
  /\ (forall k, In k (map fst (group_by_count keys)) <-> In k keys)
  /\ (forall k n,
        In (k, n) (group_by_count keys) ->
        n = count_occ string_dec keys k /\ (0 < n)%nat).
Proof.
  destruct (group_by_count_from keys [] (List.NoDup_nil _) (List.Forall_nil _))
    as (A & B & C & K & E).
  fold (group_by_count keys) in *. simpl in *.
  split; [exact A|]. split; [exact C|]. split.
  - intros k. rewrite K. tauto.
  - intros k n I. rewrite List.Forall_forall in B.
    pose proof (B (k, n) I) as Pn. simpl in Pn.
    destruct (E k n I) as [[[] _]|[_ ->]]. split; [reflexivity | exact Pn].
Qed.

Section Engine.

Context `{SqlEngine}.

Lemma selected_split (nb : notebook) (t : taxi_trip) (p : prepared) :
  selected_from nb t p -> p_split p = UNASSIGNED \/ p_split p = TEST.
Proof.
  intros [r Er]. unfold select_list in Er.
  destruct (tip_bin (tips t) (fare t)) as [b|e]; simpl in Er;
    [|discriminate Er].
  injection Er as <-. simpl. apply split_column_values.
Qed.

(** X6: counting the rows of the prepared table per split gives at most
    two groups, for [UNASSIGNED] and for [TEST], no group twice; each holds
    the number of rows with that split, which is not zero, and the counts
    add up to the number of rows of the table. *)
Theorem split_counts_of_prepared (nb : notebook) (yr : Z) (limit : nat)
    (rand : nat -> Q) (source : list taxi_trip) :
  exists out,
    prepare_query nb yr limit rand source = Ok out
    /\ List.NoDup (map fst (split_counts out))
    /\ (length (split_counts out) <= 2)%nat
    /\ list_sum (map snd (split_counts out)) = length out
    /\ forall k n,
         In (k, n) (split_counts out) ->
         (k = UNASSIGNED \/ k = TEST)
         /\ (0 < n)%nat
         /\ n = length (List.filter (fun p => String.eqb (p_split p) k) out).
Proof.
  destruct (prepare_query_total nb yr limit rand source) as (out & E & F).
  exists out. split; [exact E|].
  assert (V : Forall (fun p => p_split p = UNASSIGNED \/ p_split p = TEST) out).
  { eapply DataPrepMore.Forall2_right; [|exact F].
    intros t p S. exact (selected_split nb t p S). }
  unfold split_counts.
  destruct (group_by_count_spec (map p_split out)) as (A & B & K & C).
  assert (Keys : forall k,
             In k (map fst (group_by_count (map p_split out))) ->
             k = UNASSIGNED \/ k = TEST).
  { intros k Hk. apply K in Hk. apply in_map_iff in Hk.
    destruct Hk as (p & <- & Hp).
    rewrite List.Forall_forall in V. exact (V p Hp). }
  split; [exact A|]. split.
  { rewrite <- (length_map fst).
    apply (NoDup_incl_length (l' := [UNASSIGNED; TEST]) A).
    intros k Hk. destruct (Keys k Hk) as [->| ->]; simpl; auto. }
  split; [rewrite B; apply length_map|].
  intros k n I. split.
  { apply Keys. apply in_map_iff. exists (k, n). auto. }
  destruct (C k n I) as [-> P]. split; [exact P|].
  clear. induction out as [|p out IH]; simpl; [reflexivity|].
  destruct (string_dec (p_split p) k) as [->|N].
  - rewrite String.eqb_refl. simpl. rewrite IH. reflexivity.
  - destruct (String.eqb_spec (p_split p) k); [contradiction | exact IH].
Qed.

End Engine.

End SplitCountFacts.

(** ** More on the substituted script *)

Module TemplateMore.
Import DataPrep Template FollowUp TemplateFacts.

Lemma append_empty_r (s : string) : s +:+ "" = s.
Proof.
  induction s as [|c s IH]; [reflexivity|].
  change (String c s +:+ "") with (String c (s +:+ "")). rewrite IH.
  reflexivity.
Qed.

Lemma append_assoc (a b c : string) : (a +:+ b) +:+ c = a +:+ (b +:+ c).
Proof.
  induction a as [|x a IH]; [reflexivity|].
  change (String x a +:+ b) with (String x (a +:+ b)).
  change (String x (a +:+ b) +:+ c) with (String x ((a +:+ b) +:+ c)).
  rewrite IH. reflexivity.
Qed.

Lemma no_at_append (a b : string) :
  no_at a = true -> no_at b = true -> no_at (a +:+ b) = true.
Proof.
  induction a as [|x a IH]; intros Ha Hb; [exact Hb|].
  change (String x a +:+ b) with (String x (a +:+ b)).
  simpl in *. apply andb_prop in Ha. destruct Ha as [Hx Ha].
  rewrite Hx. apply IH; assumption.
Qed.

(** A script without ['@'] is left as it is by a [replace] of a
    placeholder. *)
Lemma replace_no_at (old new s : string) :
  placeholder_ok old = true -> no_at s = true -> replace old new s = s.
Proof.
  intros Hold Hs.
  pose proof (replace_render [old] old new [Lit s]) as R.
  cbn [render fill_all] in R. rewrite append_empty_r in R.
  apply R.
  - left. reflexivity.
  - simpl. rewrite Hold. reflexivity.
  - simpl. rewrite Hs. reflexivity.
Qed.

(** The chain of [replace] calls on a rendered template. *)
Lemma replace_placeholders_render (nb : notebook)
    (PROJECT BQ_DATASET_NAME BQ_TABLE_NAME Y L : string) (toks : list token) :
  no_at PROJECT = true -> no_at BQ_DATASET_NAME = true ->
  no_at BQ_TABLE_NAME = true -> no_at Y = true ->
  tokens_ok (placeholders nb) toks = true ->
  replace "@LIMIT" L
    (replace "@YEAR" Y
      (replace "@TABLE" BQ_TABLE_NAME
        (replace "@DATASET" BQ_DATASET_NAME
          (replace (project_placeholder nb) PROJECT (render toks)))))
  = render
      (fill_all [("@LIMIT"%string, L)]
         (fill_all [("@YEAR"%string, Y)]
            (fill_all [("@TABLE"%string, BQ_TABLE_NAME)]
               (fill_all [("@DATASET"%string, BQ_DATASET_NAME)]
                  (fill_all [(project_placeholder nb, PROJECT)] toks))))).
Proof.
  intros HP HD HT HY Hok.
  pose proof (placeholders_ok nb) as Hkeys.
  set (keys := placeholders nb) in *.
  assert (In1 : In (project_placeholder nb) keys) by (left; reflexivity).
  assert (In2 : In "@DATASET"%string keys) by (subst keys; simpl; tauto).
  assert (In3 : In "@TABLE"%string keys) by (subst keys; simpl; tauto).
  assert (In4 : In "@YEAR"%string keys) by (subst keys; simpl; tauto).
  assert (In5 : In "@LIMIT"%string keys) by (subst keys; simpl; tauto).
  rewrite (replace_render keys _ PROJECT toks In1 Hkeys Hok).
  apply (fill_all_ok [(project_placeholder nb, PROJECT)] keys) in Hok;
    [|repeat constructor; exact HP].
  rewrite (replace_render keys _ BQ_DATASET_NAME _ In2 Hkeys Hok).
  apply (fill_all_ok [("@DATASET"%string, BQ_DATASET_NAME)] keys) in Hok;
    [|repeat constructor; exact HD].
  rewrite (replace_render keys _ BQ_TABLE_NAME _ In3 Hkeys Hok).
  apply (fill_all_ok [("@TABLE"%string, BQ_TABLE_NAME)] keys) in Hok;
    [|repeat constructor; exact HT].
  rewrite (replace_render keys _ Y _ In4 Hkeys Hok).
  apply (fill_all_ok [("@YEAR"%string, Y)] keys) in Hok;
    [|repeat constructor; exact HY].
  rewrite (replace_render keys _ L _ In5 Hkeys Hok).
  reflexivity.
Qed.

Lemma render_literals (toks : list token) :
  Forall
    (fun tok => match tok with Lit s => no_at s = true | Hole _ => False end)
    toks ->
  no_at (render toks) = true.
Proof.
  induction 1 as [|[s|n] toks Htok _ IH]; [reflexivity| |contradiction].
  cbn [render]. apply no_at_append; assumption.
Qed.

(** The script the chain produces, as the text between the placeholders
    and the values. *)
Lemma substitute_filled (nb : notebook)
    (PROJECT BQ_DATASET_NAME BQ_TABLE_NAME : string) (yr sample_size : Z) :
  no_at PROJECT = true -> no_at BQ_DATASET_NAME = true ->
  no_at BQ_TABLE_NAME = true ->
  substitute nb PROJECT BQ_DATASET_NAME BQ_TABLE_NAME yr sample_size
  = render
      (fill_all
         (bindings nb PROJECT BQ_DATASET_NAME BQ_TABLE_NAME yr sample_size)
         (tokenize (sql_script nb))).
Proof.
  intros HP HD HT. unfold substitute, bindings.
  rewrite <- (sql_script_tokens nb) at 1.
  rewrite (replace_placeholders_render nb PROJECT BQ_DATASET_NAME
             BQ_TABLE_NAME (str yr) (str sample_size) _ HP HD HT
             (str_no_at yr) (sql_script_tokens_ok nb)).
  f_equal. generalize (str yr) (str sample_size). intros Y L.
  destruct nb; vm_compute; reflexivity.
Qed.

Lemma starts_with_drop (p s : string) :
  starts_with p s = true -> s = p +:+ string_drop (String.length p) s.
Proof.
  revert s. induction p as [|c p IH]; intros [|d s]; simpl;
    try reflexivity; try discriminate.
  intros E. apply andb_prop in E. destruct E as [Ec Ep].
  apply Ascii.eqb_eq in Ec. subst d.
  change (String c p +:+ string_drop (String.length p) s)
    with (String c (p +:+ string_drop (String.length p) s)).
  rewrite <- (IH s Ep). reflexivity.
Qed.

(** The template with its holes filled: the values between four pieces
    of text without ['@']. *)
Lemma filled_tokens (nb : notebook)
    (PROJECT BQ_DATASET_NAME BQ_TABLE_NAME Y L : string) :
  exists l0 l1 l2 l3,
    fill_all
      [(project_placeholder nb, PROJECT); ("@DATASET", BQ_DATASET_NAME);
       ("@TABLE", BQ_TABLE_NAME); ("@YEAR", Y); ("@LIMIT", L)]%string
      (tokenize (sql_script nb))
    = [Lit l0; Lit PROJECT; Lit "."; Lit BQ_DATASET_NAME; Lit ".";
       Lit BQ_TABLE_NAME; Lit l1; Lit Y; Lit l2; Lit L; Lit l3]
    /\ l0 = newline +:+ "CREATE OR REPLACE TABLE `"
    /\ starts_with "` " l1 = true
    /\ l3 = newline +:+ ")" +:+ newline
    /\ no_at l0 = true /\ no_at l1 = true /\ no_at l2 = true
    /\ no_at l3 = true
    /\ exists l2', l2 = l2' +:+ "LIMIT ".
Proof.
  set (filled := fill_all _ _).
  destruct nb; vm_compute in filled; subst filled;
    do 4 eexists; (split; [reflexivity|]);
    (do 7 (split; [vm_compute; reflexivity|]));
    match goal with
    | |- exists l2', ?l2 = _ =>
        exists (String.substring 0 (String.length l2 - 6) l2)
    end; vm_compute; reflexivity.
Qed.

(** X7: when the project, dataset and table values contain no ['@'], none
    is left in the produced script: every placeholder is gone, and running
    the substitution cell once more on the produced script changes
    nothing. *)
Theorem substitute_leaves_no_placeholder (nb : notebook)
    (PROJECT BQ_DATASET_NAME BQ_TABLE_NAME : string) (yr sample_size : Z) :
  no_at PROJECT = true -> no_at BQ_DATASET_NAME = true ->
  no_at BQ_TABLE_NAME = true ->
  no_at (substitute nb PROJECT BQ_DATASET_NAME BQ_TABLE_NAME yr sample_size)
  = true
  /\ replace_placeholders nb PROJECT BQ_DATASET_NAME BQ_TABLE_NAME yr
       sample_size
       (substitute nb PROJECT BQ_DATASET_NAME BQ_TABLE_NAME yr sample_size)
     = substitute nb PROJECT BQ_DATASET_NAME BQ_TABLE_NAME yr sample_size.
Proof.
  intros HP HD HT.
  assert (N : no_at (substitute nb PROJECT BQ_DATASET_NAME BQ_TABLE_NAME yr
                       sample_size) = true).
  { rewrite (substitute_filled nb _ _ _ yr sample_size HP HD HT).
    unfold bindings.
    destruct (filled_tokens nb PROJECT BQ_DATASET_NAME BQ_TABLE_NAME (str yr)
                (str sample_size))
      as (l0 & l1 & l2 & l3 & -> & _ & _ & _ & N0 & N1 & N2 & N3 & _).
    apply render_literals.
    repeat (constructor; [first [assumption | reflexivity | apply str_no_at]|]).
    constructor. }
  split; [exact N|].
  unfold replace_placeholders.
  rewrite (replace_no_at (project_placeholder nb));
    [| destruct nb; reflexivity | exact N].
  rewrite (replace_no_at "@DATASET" _ _ eq_refl N).
  rewrite (replace_no_at "@TABLE" _ _ eq_refl N).
  rewrite (replace_no_at "@YEAR" _ _ eq_refl N).
  apply (replace_no_at "@LIMIT" _ _ eq_refl N).
Qed.

Lemma substitute_leaves_no_placeholder_witness :
  no_at (substitute DataAnalysis "ksalama-cloudml" "playground_us"
           "chicago_taxitrips_prep" 2020 1000000) = true.
Proof.
  apply (substitute_leaves_no_placeholder DataAnalysis "ksalama-cloudml"
           "playground_us" "chicago_taxitrips_prep" 2020 1000000);
    reflexivity.
Defined.

(** X8: the produced script starts by creating or replacing the table that
    the source URI of the dataset resource names, and it ends with the limit
    of the sample size. *)
Theorem substitute_names_the_dataset_table (nb : notebook)
    (PROJECT BQ_DATASET_NAME BQ_TABLE_NAME : string) (yr sample_size : Z) :
  no_at PROJECT = true -> no_at BQ_DATASET_NAME = true ->
  no_at BQ_TABLE_NAME = true ->
  exists table body,
    bq_uri PROJECT BQ_DATASET_NAME BQ_TABLE_NAME = "bq://" +:+ table
    /\ substitute nb PROJECT BQ_DATASET_NAME BQ_TABLE_NAME yr sample_size
       = (newline +:+ "CREATE OR REPLACE TABLE `" +:+ table +:+ "` ")
         +:+ body
         +:+ ("LIMIT " +:+ str sample_size +:+ newline +:+ ")" +:+ newline).
Proof.
  intros HP HD HT.
  rewrite (substitute_filled nb _ _ _ yr sample_size HP HD HT).
  unfold bindings.
  destruct (filled_tokens nb PROJECT BQ_DATASET_NAME BQ_TABLE_NAME (str yr)
              (str sample_size))
    as (l0 & l1 & l2 & l3 & -> & -> & S1 & -> & _ & _ & _ & _ & l2' & ->).
  exists (PROJECT +:+ "." +:+ BQ_DATASET_NAME +:+ "." +:+ BQ_TABLE_NAME).
  exists (string_drop 2 l1 +:+ str yr +:+ l2').
  split; [reflexivity|].
  cbn [render]. rewrite (starts_with_drop "` " l1 S1) at 1.
  cbn [String.length]. rewrite append_empty_r, !append_assoc. reflexivity.
Qed.

Lemma substitute_names_the_dataset_table_witness :
  exists table body,
    bq_uri "my-project" "playground_us" "chicago_taxitrips_prep"
    = "bq://" +:+ table
    /\ substitute DatasetManagement "my-project" "playground_us"
         "chicago_taxitrips_prep" 2020 1000000
       = (newline +:+ "CREATE OR REPLACE TABLE `" +:+ table +:+ "` ")
         +:+ body
         +:+ ("LIMIT " +:+ str 1000000 +:+ newline +:+ ")" +:+ newline).
Proof.
  apply (substitute_names_the_dataset_table DatasetManagement "my-project"
           "playground_us" "chicago_taxitrips_prep" 2020 1000000);
    reflexivity.
Defined.

End TemplateMore.

(** ** More on the polling loop *)

Module PollingMore.
Import Py Polling PollingLog PollingFacts.

(** X9: as long as the job service reports states other than
    [JOB_STATE_SUCCEEDED] and [JOB_STATE_FAILED], a cancelled, expired or
    paused job included, the loop goes on: after any number of passes it is
    still polling, having called the service once and slept 60 seconds per
    pass. *)
Theorem polling_never_ends_on_other_states
    (get_custom_job : nat -> call CustomJob) (fuel : nat) :
  (forall i, goes_on_at get_custom_job i) ->
  fst (monitor_job_state fuel get_custom_job start) = StillPolling
  /\ polls (snd (monitor_job_state fuel get_custom_job start)) = fuel
  /\ slept (snd (monitor_job_state fuel get_custom_job start))
     = 60 * Z.of_nat fuel.
Proof.
  intros Hgo.
  destruct (monitor_job_state_goes_on get_custom_job fuel 0%nat start)
    as (w & Erun & Ep & Es); [intros i _; apply Hgo|].
  rewrite Nat.add_0_r in Erun. rewrite Erun. simpl in *.
  split; [reflexivity|]. split; [exact Ep | exact Es].
Qed.

Lemma polling_never_ends_on_other_states_witness :
  fst (monitor_job_state 1000
         (fun _ => Returned (job_in_state "JOB_STATE_CANCELLED")) start)
  = StillPolling.
Proof.
  apply (polling_never_ends_on_other_states
           (fun _ => Returned (job_in_state "JOB_STATE_CANCELLED")) 1000).
  intros i. exists (job_in_state "JOB_STATE_CANCELLED").
  split; [reflexivity|]. unfold terminal. simpl. intuition discriminate.
Defined.

Lemma closing_lines_spec (response : CustomJob) (w : world) :
  terminal (state_name response) ->
  loop_body response w
  = (Break,
     {| polls := polls w; slept := slept w;
        stdout := stdout w ++ closing_lines response |}).
Proof.
  intros T. unfold loop_body, closing_lines, print.
  destruct (String.eqb_spec (state_name response) "JOB_STATE_SUCCEEDED")
    as [E|N]; simpl.
  - rewrite <- app_assoc. reflexivity.
  - destruct T as [T|T]; [contradiction|]. rewrite T. reflexivity.
Qed.

(** The passes over answers with other states: one call, one line and 60
    seconds each. *)
Lemma monitor_job_state_log (later : call CustomJob)
    (responses : list CustomJob) :
  Forall (fun response => ~ terminal (state_name response)) responses ->
  forall (already rest : list CustomJob) (fuel : nat) (w : world),
    polls w = length already ->
    monitor_job_state (length responses + fuel)
      (answers (already ++ responses ++ rest) later) w
    = monitor_job_state fuel (answers (already ++ responses ++ rest) later)
        {| polls := (polls w + length responses)%nat;
           slept := slept w + 60 * Z.of_nat (length responses);
           stdout := stdout w ++ map progress_line responses |}.
Proof.
  induction 1 as [|response responses N _ IH]; intros already rest fuel w Hp.
  - destruct w as [p s o]. simpl.
    rewrite Nat.add_0_r, Z.add_0_r, app_nil_r. reflexivity.
  - cbn [length Nat.add monitor_job_state].
    unfold answers at 1. rewrite Hp.
    rewrite nth_error_app2 by lia. rewrite Nat.sub_diag. cbn [nth_error app].
    rewrite (loop_body_continue response (polled w) N).
    replace (already ++ response :: responses ++ rest)
      with ((already ++ [response]) ++ responses ++ rest)
      by (rewrite <- app_assoc; reflexivity).
    rewrite IH by (rewrite length_app; simpl; lia).
    f_equal. simpl. f_equal; [lia | lia |].
    rewrite <- app_assoc. reflexivity.
Qed.

(** X10: when the service answers with jobs in other states and then with
    one that succeeded or failed, the cell finishes having called the service
    once per answer, slept 60 seconds per earlier answer and printed one line
    with the state of each earlier answer, in order, followed by the lines
    for the last one. *)
Theorem polling_log (responses : list CustomJob) (last : CustomJob)
    (later : call CustomJob) (fuel : nat) :
  Forall (fun response => ~ terminal (state_name response)) responses ->
  terminal (state_name last) ->
  (length responses < fuel)%nat ->
  monitor_job_state fuel (answers (responses ++ [last]) later) start
  = (Finished,
     {| polls := S (length responses);
        slept := 60 * Z.of_nat (length responses);
        stdout := map progress_line responses ++ closing_lines last |}).
Proof.
  intros Hgo T Hfuel.
  replace fuel with (length responses + S (fuel - S (length responses)))%nat
    by lia.
  rewrite (monitor_job_state_log later responses Hgo [] [last] _ start eq_refl).
  cbn [app monitor_job_state polls start]. unfold answers.
  rewrite nth_error_app2 by (simpl; lia).
  replace (0 + length responses - length responses)%nat with 0%nat by lia.
  cbn [nth_error].
  rewrite (closing_lines_spec last _ T). reflexivity.
Qed.

Lemma polling_log_witness :
  monitor_job_state 10
    (answers
       ([job_in_state "JOB_STATE_PENDING"; job_in_state "JOB_STATE_RUNNING"]
        ++ [job_in_state "JOB_STATE_FAILED"])
       (Raised "unreachable")) start
  = (Finished,
     {| polls := 3; slept := 120;
        stdout :=
          [ [PStr "Training job state is: JOB_STATE_PENDING."];
            [PStr "Training job state is: JOB_STATE_RUNNING."];
            [PStr "Training job failed!"] ] |}).
Proof.
  apply (polling_log
           [job_in_state "JOB_STATE_PENDING"; job_in_state "JOB_STATE_RUNNING"]
           (job_in_state "JOB_STATE_FAILED") (Raised "unreachable") 10).
  - repeat constructor; unfold terminal; simpl; intuition discriminate.
  - right. reflexivity.
  - simpl. lia.
Defined.

End PollingMore.

(** ** Getting the monitoring job from the listing *)

Module SelectionFacts.
Import Py Monitoring.

Lemma select_monitoring_job_cons (entry : ModelDeploymentMonitoringJob)
    (jobs : list ModelDeploymentMonitoringJob) :
  select_monitoring_job (entry :: jobs)
  = if String.eqb (display_name entry) MONITORING_JOB_NAME
    then Returned entry
    else select_monitoring_job jobs.
Proof.
  unfold select_monitoring_job. simpl.
  destruct (String.eqb (display_name entry) MONITORING_JOB_NAME); reflexivity.
Qed.

(** X11: the job got from the listing is the first listed job with the
    display name of the notebook, whatever is listed after it; when no
    listed job has that display name, and only then, the cell fails with an
    [IndexError]. *)
Theorem select_monitoring_job_first
    (jobs : list ModelDeploymentMonitoringJob) :
  (forall r,
     select_monitoring_job jobs = Returned r
     <-> exists before after,
           jobs = before ++ r :: after
           /\ display_name r = MONITORING_JOB_NAME
           /\ Forall (fun e => display_name e <> MONITORING_JOB_NAME) before)
  /\ (forall e,
        select_monitoring_job jobs = Raised e
        <-> e = "IndexError"%string
            /\ Forall (fun j => display_name j <> MONITORING_JOB_NAME) jobs).
Proof.
  induction jobs as [|entry jobs [IHr IHe]].
  - split.
    + intros r. split; [discriminate|].
      intros ([|? ?] & after & E & _); discriminate E.
    + intros e. unfold select_monitoring_job. simpl. split.
      * intros E. injection E as <-. split; [reflexivity | constructor].
      * intros [-> _]. reflexivity.
  - rewrite select_monitoring_job_cons.
    destruct (String.eqb_spec (display_name entry) MONITORING_JOB_NAME)
      as [Hn|Hn]; split.
    + intros r. split.
      * intros E. injection E as <-. exists [], jobs.
        split; [reflexivity|]. split; [exact Hn | constructor].
      * intros ([|b before] & after & E & Hr & Hb).
        -- injection E as <- _. reflexivity.
        -- injection E as <- _. inversion Hb; subst. contradiction.
    + intros e. split; [discriminate|].
      intros [_ F]. inversion F; subst. contradiction.
    + intros r. rewrite IHr. split.
      * intros (before & after & -> & Hr & Hb).
        exists (entry :: before), after.
        split; [reflexivity|]. split; [exact Hr | constructor; assumption].
      * intros ([|b before] & after & E & Hr & Hb).
        -- injection E as -> _. contradiction.
        -- injection E as -> ->. inversion Hb; subst.
           exists before, after. auto.
    + intros e. rewrite IHe. split.
      * intros [-> F]. split; [reflexivity | constructor; assumption].
      * intros [-> F]. inversion F; subst. auto.
Qed.

End SelectionFacts.

(** ** Setup, run identifiers and directories *)

Module SetupFacts.
Import Py Template Setup.

(** X12: the setup cell of the experimentation notebook fails, with an
    [IndexError], exactly when the project or the service account is left
    unset and [gcloud] prints nothing for it. When it completes, a project,
    account and bucket that were set are kept as written, an unset project
    or account is the first line [gcloud] printed, and an unset bucket is
    the project the cell ended up with. *)
Theorem setup_cell_settings (written : settings)
    (gcloud_project gcloud_account : list string) :
  (forall e,
     setup_cell written gcloud_project gcloud_account = Raised e
     <-> e = "IndexError"%string
         /\ ((unset "[your-project-id]" (PROJECT_ID written) = true
              /\ gcloud_project = [])
             \/ (unset "[your-service-account]" (SERVICE_ACCOUNT written)
                 = true
                 /\ gcloud_account = [])))
  /\ (forall s,
        setup_cell written gcloud_project gcloud_account = Returned s ->
        PROJECT_ID s
        = (if unset "[your-project-id]" (PROJECT_ID written)
           then head gcloud_project else PROJECT_ID written)
        /\ SERVICE_ACCOUNT s
           = (if unset "[your-service-account]" (SERVICE_ACCOUNT written)
              then head gcloud_account else SERVICE_ACCOUNT written)
        /\ BUCKET s
           = (if unset "[your-bucket-name]" (BUCKET written)
              then PROJECT_ID s else BUCKET written)
        /\ unset "[your-project-id]" (PROJECT_ID s)
           = unset "[your-project-id]" (head gcloud_project)
             && unset "[your-project-id]" (PROJECT_ID written)).
Proof.
  unfold setup_cell, resolve, first_line.
  destruct (unset "[your-project-id]" (PROJECT_ID written)) eqn:Up,
    (unset "[your-service-account]" (SERVICE_ACCOUNT written)) eqn:Ua,
    gcloud_project as [|p ps], gcloud_account as [|a as_];
    (split;
     [ intros e; split;
       [ intros E;
         first [ discriminate E
               | injection E as <-; split; [reflexivity | tauto] ]
       | intros (-> & [[D1 D2]|[D1 D2]]);
         first [ discriminate D1 | discriminate D2 | reflexivity ] ]
     | intros s E;
       first [ discriminate E
             | injection E as <-; simpl;
               rewrite ?Up, ?andb_true_r, ?andb_false_r; auto ] ]).
Qed.

Lemma ends_with_slash_append (a b : string) :
  b <> EmptyString -> ends_with_slash (a +:+ b) = ends_with_slash b.
Proof.
  intros Hb. induction a as [|c a IH]; [reflexivity|].
  change (String c a +:+ b) with (String c (a +:+ b)).
  cbn [ends_with_slash]. rewrite IH.
  destruct (a +:+ b) eqn:E; [|reflexivity].
  destruct a; [simpl in E; contradiction | discriminate E].
Qed.

Lemma append_not_empty (a b : string) :
  b <> EmptyString -> a +:+ b <> EmptyString.
Proof. destruct a; [auto | discriminate]. Qed.

(** A relative component is put after the path and one slash. *)
Lemma join_step_relative (path b : string) :
  path <> EmptyString -> ends_with_slash path = false ->
  starts_with "/" b = false ->
  join_step path b = path +:+ "/" +:+ b.
Proof.
  intros Hp Hs Hb. unfold join_step. rewrite Hb, Hs.
  destruct (String.eqb_spec path ""); [contradiction | reflexivity].
Qed.

Lemma digit_range (n : Z) : (Z.to_nat (n mod 10) < 10)%nat.
Proof. pose proof (Z.mod_pos_bound n 10 ltac:(lia)). lia. Qed.

Lemma digit_not_slash (n : Z) : Ascii.eqb (digit n) "/" = false.
Proof.
  unfold digit. pose proof (digit_range n) as R.
  destruct (Z.to_nat (n mod 10)) as [|[|[|[|[|[|[|[|[|[|k]]]]]]]]]];
    try reflexivity; lia.
Qed.

Lemma digit_inj (n m : Z) : digit n = digit m -> n mod 10 = m mod 10.
Proof.
  unfold digit. intros E.
  pose proof (digit_range n) as Rn. pose proof (digit_range m) as Rm.
  apply (f_equal nat_of_ascii) in E.
  rewrite !nat_ascii_embedding in E by lia.
  pose proof (Z.mod_pos_bound n 10 ltac:(lia)).
  pose proof (Z.mod_pos_bound m 10 ltac:(lia)). lia.
Qed.

Lemma two_digits_inj (n m : Z) :
  0 <= n < 100 -> 0 <= m < 100 -> two_digits n = two_digits m -> n = m.
Proof.
  intros Hn Hm E. unfold two_digits in E. injection E as E1 E0.
  apply digit_inj in E1. apply digit_inj in E0.
  rewrite (Z.mod_small (n / 10)) in E1 by (split; [apply Z.div_pos | apply Z.div_lt_upper_bound]; lia).
  rewrite (Z.mod_small (m / 10)) in E1 by (split; [apply Z.div_pos | apply Z.div_lt_upper_bound]; lia).
  pose proof (Z.div_mod n 10 ltac:(lia)). pose proof (Z.div_mod m 10 ltac:(lia)).
  lia.
Qed.

Lemma two_digits_append_inj (n m : Z) (s t : string) :
  0 <= n < 100 -> 0 <= m < 100 ->
  two_digits n +:+ s = two_digits m +:+ t -> n = m /\ s = t.
Proof.
  intros Hn Hm E. unfold two_digits in E.
  change (String ?a (String ?b EmptyString) +:+ ?r)
    with (String a (String b r)) in E.
  injection E as E1 E0 Er.
  split; [|exact Er].
  apply two_digits_inj; [exact Hn | exact Hm|].
  unfold two_digits. rewrite E1, E0. reflexivity.
Qed.

Lemma strftime_inj (a b : datetime) :
  well_formed a -> well_formed b -> strftime a = strftime b -> a = b.
Proof.
  intros (Ya & Ma & Da & Ha & Mia & Sa) (Yb & Mb & Db & Hb & Mib & Sb) E.
  unfold strftime in E.
  apply two_digits_append_inj in E;
    [| split; [apply Z.div_pos | apply Z.div_lt_upper_bound]; lia
     | split; [apply Z.div_pos | apply Z.div_lt_upper_bound]; lia].
  destruct E as [Ey1 E].
  apply two_digits_append_inj in E;
    [| apply Z.mod_pos_bound; lia | apply Z.mod_pos_bound; lia].
  destruct E as [Ey2 E].
  apply two_digits_append_inj in E; [|lia|lia]. destruct E as [Emo E].
  apply two_digits_append_inj in E; [|lia|lia]. destruct E as [Ed E].
  apply two_digits_append_inj in E; [|lia|lia]. destruct E as [Eh E].
  apply two_digits_append_inj in E; [|lia|lia]. destruct E as [Emi E].
  apply two_digits_inj in E; [|lia|lia].
  assert (Ey : year a = year b).
  { pose proof (Z.div_mod (year a) 100 ltac:(lia)).
    pose proof (Z.div_mod (year b) 100 ltac:(lia)). lia. }
  destruct a, b. simpl in *. subst. reflexivity.
Qed.

Lemma strftime_last (now : datetime) :
  exists front c,
    strftime now = front +:+ String c EmptyString
    /\ Ascii.eqb c "/" = false /\ Ascii.eqb c "@" = false.
Proof.
  unfold strftime.
  exists (two_digits (year now / 100) +:+ two_digits (year now mod 100)
          +:+ two_digits (month now) +:+ two_digits (day now)
          +:+ two_digits (hour now) +:+ two_digits (minute now)
          +:+ String (digit (second now / 10)) EmptyString),
    (digit (second now)).
  split.
  - rewrite !TemplateMore.append_assoc. reflexivity.
  - split; [apply digit_not_slash|].
    unfold digit. pose proof (digit_range (second now)) as R.
    destruct (Z.to_nat (second now mod 10))
      as [|[|[|[|[|[|[|[|[|[|k]]]]]]]]]]; try reflexivity; lia.
Qed.

(** The components of a run directory, joined. *)
Lemma run_subdir_joined (bucket : string) (kind : run_kind) (now : datetime)
    (name : string) :
  starts_with "/" name = false ->
  run_subdir bucket kind now name
  = "gs://" +:+ bucket +:+ "/chicago-taxi-tips/experiments/"
    +:+ "chicago-taxi-tips-classifier-v1-experiment/" +:+ run_id kind now
    +:+ "/" +:+ name.
Proof.
  intros Hname.
  unfold run_subdir, EXPERIMENT_RUN_DIR, EXPERIMENT_ARTIFACTS_DIR, join.
  cbn [fold_left].
  assert (W : WORKSPACE bucket
              = ("gs://" +:+ bucket) +:+ "/chicago-taxi-tips").
  { unfold WORKSPACE. rewrite TemplateMore.append_assoc. reflexivity. }
  rewrite W.
  rewrite (join_step_relative _ "experiments");
    [| apply append_not_empty; discriminate
     | rewrite ends_with_slash_append by discriminate; reflexivity
     | reflexivity].
  rewrite (join_step_relative _ EXPERIMENT_NAME);
    [| apply append_not_empty; discriminate
     | rewrite !ends_with_slash_append by discriminate; reflexivity
     | reflexivity].
  destruct (strftime_last now) as (front & c & Ets & Hc & _).
  assert (Hrun : exists front', run_id kind now = front' +:+ String c EmptyString
                                /\ starts_with "/" (run_id kind now) = false).
  { destruct kind; unfold run_id; rewrite Ets.
    - exists ("run-local-" +:+ front).
      rewrite TemplateMore.append_assoc. split; reflexivity.
    - exists ("run-gcp-" +:+ front).
      rewrite TemplateMore.append_assoc. split; reflexivity. }
  destruct Hrun as (front' & Erun & Srun).
  rewrite (join_step_relative _ (run_id kind now));
    [| apply append_not_empty; discriminate
     | rewrite !ends_with_slash_append by discriminate; reflexivity
     | exact Srun].
  assert (Nrun : run_id kind now <> EmptyString).
  { rewrite Erun. apply append_not_empty. discriminate. }
  rewrite (join_step_relative _ name);
    [| apply append_not_empty, append_not_empty; exact Nrun
     | rewrite (ends_with_slash_append _ ("/" +:+ run_id kind now))
         by (apply append_not_empty; exact Nrun);
       rewrite (ends_with_slash_append "/" (run_id kind now) Nrun);
       rewrite Erun, (ends_with_slash_append front') by discriminate;
       exact Hc
     | exact Hname].
  rewrite !TemplateMore.append_assoc. reflexivity.
Qed.

(** X13: whatever the bucket and the time, a directory of a run is the
    bucket, the dataset name, [experiments], the experiment name, the run
    identifier and the directory name, each joined to the next by one
    slash. *)
Theorem run_subdir_path (bucket : string) (kind : run_kind) (now : datetime)
    (name : string) :
  starts_with "/" name = false ->
  run_subdir bucket kind now name
  = "gs://" +:+ bucket +:+ "/chicago-taxi-tips/experiments/"
    +:+ "chicago-taxi-tips-classifier-v1-experiment/" +:+ run_id kind now
    +:+ "/" +:+ name.
Proof. exact (run_subdir_joined bucket kind now name). Qed.

Lemma run_subdir_path_witness :
  run_subdir "my-bucket" Local
    {| year := 2021; month := 5; day := 7;
       hour := 9; minute := 3; second := 59 |} "model"
  = "gs://my-bucket/chicago-taxi-tips/experiments/chicago-taxi-tips-classifier-v1-experiment/run-local-20210507090359/model"%string.
Proof.
  apply (run_subdir_path "my-bucket" Local
           {| year := 2021; month := 5; day := 7;
              hour := 9; minute := 3; second := 59 |} "model").
  reflexivity.
Defined.

Lemma run_id_inj (kind kind' : run_kind) (a b : datetime) :
  well_formed a -> well_formed b ->
  run_id kind a = run_id kind' b -> kind = kind' /\ a = b.
Proof.
  intros Wa Wb E. destruct kind, kind'; unfold run_id in E.
  - apply String.app_inj in E. split; [reflexivity|].
    apply strftime_inj; assumption.
  - discriminate E.
  - discriminate E.
  - apply String.app_inj in E. split; [reflexivity|].
    apply strftime_inj; assumption.
Qed.

(** X14: two runs have the same run directory in a bucket only if they are
    of the same kind, local or on the platform, and were started in the same
    second; a local run never shares the directory of a run on the
    platform. *)
Theorem run_dirs_distinct (bucket : string) (kind kind' : run_kind)
    (a b : datetime) :
  well_formed a -> well_formed b ->
  EXPERIMENT_RUN_DIR bucket kind a = EXPERIMENT_RUN_DIR bucket kind' b ->
  kind = kind' /\ a = b.
Proof.
  intros Wa Wb E.
  assert (P : forall k t,
             run_subdir bucket k t ""
             = join_step (EXPERIMENT_RUN_DIR bucket k t) "")
    by reflexivity.
  assert (Q : run_subdir bucket kind a "" = run_subdir bucket kind' b "")
    by (rewrite !P, E; reflexivity).
  rewrite !run_subdir_joined in Q by reflexivity.
  repeat (apply String.app_inj in Q).
  assert (R : run_id kind a = run_id kind' b).
  { revert Q. generalize (run_id kind a) (run_id kind' b). intros x y Q.
    revert y Q. induction x as [|c x IH]; intros [|d y] Q;
      try reflexivity; try discriminate Q.
    - destruct y; discriminate Q.
    - destruct x; discriminate Q.
    - change (String ?c ?x +:+ ?r) with (String c (x +:+ r)) in Q.
      injection Q as -> Q. f_equal. apply IH. exact Q. }
  exact (run_id_inj kind kind' a b Wa Wb R).
Qed.

Lemma run_dirs_distinct_witness :
  Local = Local
  /\ {| year := 2021; month := 5; day := 7;
        hour := 9; minute := 3; second := 59 |}
     = {| year := 2021; month := 5; day := 7;
          hour := 9; minute := 3; second := 59 |}.
Proof.
  apply (run_dirs_distinct "my-bucket");
    [ unfold well_formed; simpl; lia
    | unfold well_formed; simpl; lia
    | reflexivity ].
Defined.

End SetupFacts.

(** ** The experiment artifacts directory *)

Module WorkspaceFacts.
Import Workspace.

Section Files.

Context `{GFile Files}.

(** A directory that was made exists. *)
Hypothesis mkdir_exists :
  forall (fs : Files) (dir : string),
    gfile_exists (gfile_mkdir dir fs) dir = true.

(** X15: after the cell the artifacts directory exists, whether it was
    there before or not and whatever the flag; with the flag off, a
    directory that is there is left as it is, nothing is removed or made and
    only the last line is printed; without the directory, what was there is
    not touched by a removal either, the directory is made. *)
Theorem prepare_workspace_ready (REMOVE_EXPERIMENT_ARTIFACTS : bool)
    (dir : string) (fs : Files) :
  gfile_exists (fst (prepare_workspace REMOVE_EXPERIMENT_ARTIFACTS dir fs)) dir
  = true
  /\ (REMOVE_EXPERIMENT_ARTIFACTS = false -> gfile_exists fs dir = true ->
      prepare_workspace REMOVE_EXPERIMENT_ARTIFACTS dir fs
      = (fs, ["Workspace is ready."%string]))
  /\ (gfile_exists fs dir = false ->
      prepare_workspace REMOVE_EXPERIMENT_ARTIFACTS dir fs
      = (gfile_mkdir dir fs,
         ["Creating new experiment artifacts directory..."%string;
          "Workspace is ready."%string])).
Proof.
  unfold prepare_workspace. split; [|split].
  - destruct (gfile_exists fs dir) eqn:E, REMOVE_EXPERIMENT_ARTIFACTS; simpl.
    + destruct (gfile_exists (gfile_rmtree dir fs) dir) eqn:E'; simpl;
        [exact E' | apply mkdir_exists].
    + rewrite E. simpl. exact E.
    + rewrite E. simpl. apply mkdir_exists.
    + rewrite E. simpl. apply mkdir_exists.
  - intros -> E. rewrite E. simpl. rewrite E. reflexivity.
  - intros E. rewrite E. simpl. rewrite E. reflexivity.
Qed.

End Files.

Lemma path_set_mkdir_exists (fs : gset string) (dir : string) :
  gfile_exists (gfile_mkdir dir fs) dir = true.
Proof. simpl. apply bool_decide_eq_true. set_solver. Qed.

Lemma prepare_workspace_ready_witness :
  gfile_exists
    (fst (prepare_workspace true "gs://b/experiments"
            ({[ "gs://b/experiments"; "gs://b/experiments/run-1" ]}
             : gset string)))
    "gs://b/experiments"
  = true.
Proof.
  apply (prepare_workspace_ready (Files := gset string)
           path_set_mkdir_exists true "gs://b/experiments"
           {[ "gs://b/experiments"; "gs://b/experiments/run-1" ]}).
Defined.

End WorkspaceFacts.

(** ** The bucket of the monitoring artifacts *)

Module ArtifactsFacts.
Import Template Artifacts.

Lemma scheme_not_in_name (b tail : string) :
  plain_name b = true ->
  tail = EmptyString \/ (exists rest, tail = String "/" rest) ->
  forall c, starts_with "gs://" (String c (b +:+ tail)) = false.
Proof.
  intros Hb Htail c. cbn [starts_with].
  destruct (Ascii.eqb "g" c); cbn [andb]; [|reflexivity].
  destruct b as [|c2 b].
  - destruct Htail as [->|[rest ->]]; reflexivity.
  - change (String c2 b +:+ tail) with (String c2 (b +:+ tail)).
    cbn [starts_with]. destruct (Ascii.eqb "s" c2); cbn [andb]; [|reflexivity].
    destruct b as [|c3 b].
    + destruct Htail as [->|[rest ->]]; reflexivity.
    + change (String c3 b +:+ tail) with (String c3 (b +:+ tail)).
      cbn [starts_with]. cbn [plain_name] in Hb.
      destruct (Ascii.eqb_spec ":" c3) as [<-|_]; cbn [andb]; [|reflexivity].
      rewrite Ascii.eqb_refl in Hb. cbn [negb andb] in Hb.
      rewrite !andb_false_r in Hb. discriminate Hb.
Qed.

Lemma before_slash_name (b tail : string) :
  plain_name b = true ->
  tail = EmptyString \/ (exists rest, tail = String "/" rest) ->
  before_slash (replace_from "gs://" "" 0 (b +:+ tail)) = b.
Proof.
  intros Hb Htail. induction b as [|c b IH].
  - destruct Htail as [->|[rest ->]]; reflexivity.
  - change (String c b +:+ tail) with (String c (b +:+ tail)).
    cbn [replace_from].
    rewrite (scheme_not_in_name b tail);
      [| cbn [plain_name] in Hb; exact (proj2 (andb_prop _ _ Hb))
       | exact Htail].
    cbn [before_slash]. cbn [plain_name] in Hb.
    apply andb_prop in Hb. destruct Hb as [Hc Hb].
    apply andb_prop in Hc. destruct Hc as [Hc _].
    apply negb_true_iff in Hc. rewrite Hc. rewrite IH by exact Hb.
    reflexivity.
Qed.

(** X16: for a schema [gs://bucket/path] whose bucket name has no slash and
    no colon, the artifacts root is [gs://bucket], whatever the path; the
    same holds for [gs://bucket] alone and for a URI written without the
    scheme, so the root of a root is the root itself. *)
Theorem artifacts_root_is_bucket (bucket path : string) :
  plain_name bucket = true ->
  monitoring_job_artifacts_root ("gs://" +:+ bucket +:+ "/" +:+ path)
  = "gs://" +:+ bucket
  /\ monitoring_job_artifacts_root ("gs://" +:+ bucket) = "gs://" +:+ bucket
  /\ monitoring_job_artifacts_root (bucket +:+ "/" +:+ path)
     = "gs://" +:+ bucket.
Proof.
  intros Hb. unfold monitoring_job_artifacts_root, replace.
  assert (Skip : forall s,
             replace_from "gs://" "" 0 ("gs://" +:+ s)
             = replace_from "gs://" "" 0 s).
  { intros s. reflexivity. }
  split; [|split].
  - rewrite Skip. rewrite (before_slash_name bucket ("/" +:+ path) Hb);
      [reflexivity|]. right. exists path. reflexivity.
  - rewrite Skip. rewrite <- (TemplateMore.append_empty_r bucket) at 1.
    rewrite (before_slash_name bucket "" Hb); [reflexivity | left; reflexivity].
  - rewrite (before_slash_name bucket ("/" +:+ path) Hb);
      [reflexivity|]. right. exists path. reflexivity.
Qed.

Lemma artifacts_root_is_bucket_witness :
  monitoring_job_artifacts_root
    "gs://cloud-ai-platform-1234/instance_schemas/job-7/predict.yaml"
  = "gs://cloud-ai-platform-1234"%string.
Proof.
  exact (proj1 (artifacts_root_is_bucket "cloud-ai-platform-1234"
                  "instance_schemas/job-7/predict.yaml" eq_refl)).
Defined.

(** A colon in the bucket name lets the removal of [gs://] eat into the
    name. *)
Example artifacts_root_with_colon :
  monitoring_job_artifacts_root "gs://xgs://y" = "gs://xy"%string.
Proof. reflexivity. Qed.

End ArtifactsFacts.

(** ** The sample read back from the prepared table *)

Module SampleFacts.
Import Sql DataPrep FollowUp DataPrepFacts.

Section Engine.

Context `{SqlEngine}.

Lemma select_list_except (nb nb' : notebook) (r r' : Q) (t : taxi_trip) :
  match select_list nb r t, select_list nb' r' t with
  | Ok p, Ok p' => select_except p = select_except p'
  | Err e, Err e' => e = e'
  | _, _ => False
  end.
Proof.
  unfold select_list.
  destruct (tip_bin (tips t) (fare t)) as [b|e]; simpl; reflexivity.
Qed.

Lemma taxitrips_Permutation (yr : Z) (source source' : list taxi_trip) :
  Permutation source source' ->
  Permutation (taxitrips yr source) (taxitrips yr source').
Proof.
  unfold taxitrips. intros P.
  induction P as [|t l l' P IH|t u l|l l' l'' P IH P' IH']; simpl.
  - constructor.
  - destruct (holds (where_clause yr t)); [constructor|]; exact IH.
  - destruct (holds (where_clause yr t)), (holds (where_clause yr u));
      try constructor; apply Permutation_refl.
  - exact (Permutation_trans IH IH').
Qed.

(** The sample row of a prepared row is a function of the source row. *)
Lemma sample_of_rows :
  exists g : taxi_trip -> sample_row,
    forall (nb : notebook) (rand : nat -> Q) (rows : list taxi_trip)
      (i : nat) (ps : list prepared),
      select_rows nb rand i rows = Ok ps -> sample_data ps = map g rows.
Proof.
  exists (fun t =>
            match select_list DataAnalysis 0 t with
            | Ok p => select_except p
            | Err _ =>
                {| s_trip_month := None; s_trip_day := None;
                   s_trip_day_of_week := None; s_trip_hour := None;
                   s_trip_seconds := None; s_trip_miles := None;
                   s_payment_type := None; s_pickup_grid := None;
                   s_dropoff_grid := None; s_euclidean := None;
                   s_loc_cross := None; s_tip_bin := 0 |}
            end).
  intros nb rand rows.
  induction rows as [|t rows IH]; intros i ps E; simpl in E.
  - injection E as <-. reflexivity.
  - pose proof (select_list_except nb DataAnalysis (rand i) 0 t) as Same.
    destruct (select_list nb (rand i) t) as [p|e]; simpl in E;
      [|discriminate E].
    destruct (select_rows nb rand (S i) rows) as [qs|e] eqn:R; simpl in E;
      [|discriminate E].
    injection E as <-. unfold sample_data in *. simpl.
    destruct (select_list DataAnalysis 0 t) as [p'|e']; [|contradiction].
    rewrite Same. f_equal. exact (IH (S i) qs R).
Qed.

(** X17: when the limit does not cut the rows that pass the filter, the
    sample taken from the prepared table, which leaves out the timestamp
    and the split, holds the same rows, each as often, whatever the order
    the source is read in, whatever the random draws, and whichever of the
    two notebooks prepared the table. *)
Theorem sample_data_reproducible (nb nb' : notebook) (yr : Z)
    (limit limit' : nat) (rand rand' : nat -> Q)
    (source source' : list taxi_trip) (out out' : list prepared) :
  Permutation source source' ->
  (length (taxitrips yr source) <= limit)%nat ->
  (length (taxitrips yr source) <= limit')%nat ->
  prepare_query nb yr limit rand source = Ok out ->
  prepare_query nb' yr limit' rand' source' = Ok out' ->
  Permutation (sample_data out) (sample_data out').
Proof.
  intros P L L' E E'. unfold prepare_query in E, E'.
  destruct sample_of_rows as [g G].
  pose proof (taxitrips_Permutation yr source source' P) as PT.
  destruct (select_rows nb rand 0 (taxitrips yr source)) as [ps|e] eqn:R;
    simpl in E; [|discriminate E].
  destruct (select_rows nb' rand' 0 (taxitrips yr source')) as [ps'|e] eqn:R';
    simpl in E'; [|discriminate E'].
  injection E as <-. injection E' as <-.
  pose proof (G nb rand _ 0%nat ps R) as S1.
  pose proof (G nb' rand' _ 0%nat ps' R') as S2.
  assert (N : length ps = length (taxitrips yr source)).
  { apply (f_equal (@length _)) in S1. unfold sample_data in S1.
    rewrite !length_map in S1. exact S1. }
  assert (N' : length ps' = length (taxitrips yr source)).
  { apply (f_equal (@length _)) in S2. unfold sample_data in S2.
    rewrite !length_map in S2. rewrite S2. symmetry.
    apply Permutation_length. exact PT. }
  rewrite (firstn_all2 (n := limit) ps) by lia.
  rewrite (firstn_all2 (n := limit') ps') by lia.
  rewrite S1, S2. apply Permutation_map. exact PT.
Qed.

End Engine.

Lemma sample_data_reproducible_witness :
  exists out out',
    prepare_query (H := sample_engine) DataAnalysis 2020 5 (fun _ => 1 # 2)
      sample_source = Ok out
    /\ prepare_query (H := sample_engine) DatasetManagement 2020 7
         (fun _ => 9 # 10) (rev sample_source) = Ok out'
    /\ Permutation (sample_data out) (sample_data out').
Proof.
  destruct (prepare_query (H := sample_engine) DataAnalysis 2020 5
              (fun _ => 1 # 2) sample_source) as [out|e] eqn:E;
    [|vm_compute in E; discriminate E].
  destruct (prepare_query (H := sample_engine) DatasetManagement 2020 7
              (fun _ => 9 # 10) (rev sample_source)) as [out'|e] eqn:E';
    [|vm_compute in E'; discriminate E'].
  exists out, out'. split; [reflexivity|]. split; [reflexivity|].
  apply (sample_data_reproducible (H := sample_engine) DataAnalysis
           DatasetManagement 2020 5 7 (fun _ => 1 # 2) (fun _ => 9 # 10)
           sample_source (rev sample_source) out out').
  - apply Permutation_rev.
  - vm_compute. lia.
  - vm_compute. lia.
  - exact E.
  - exact E'.
Defined.

End SampleFacts.
